(** * The breadcrumb hierarchy engine of [app/static/js/sidebar.js]

    A shallow embedding of the breadcrumb part of the script (the section
    headed [// breadcrumb.js]): URL normalisation, the dashboard predicate,
    dashboard resolution, trail construction, persistence in
    [localStorage], rendering, and the control surface exported as
    [window.breadcrumbManager].

    Conventions.
    - A JavaScript string is a [string]: a sequence of 8-bit code units.
    - A JavaScript value read back from storage is a [value]; the trail
      [breadcrumbs] is a list of such values, because [loadBreadcrumbs]
      validates truthiness of the fields, not their types.
    - A call that can throw returns a [result]; a statement sequence that
      can throw after it has changed the engine returns an [outcome],
      which keeps the state reached at the throw.
    - What the browser provides ([window.location.origin], [JSON.parse],
      [JSON.stringify], the coercion of a non-string to a property key) is
      a variable of the section [Engine].
    - The sidebar half of the file ([populateSidebar], the toggle), the
      unused [getResolvedUrl] and the click listener, whose body only
      computes two locals, are left out. *)

From Stdlib Require Import Floats.
From stdpp Require Import base option list strings gmap.


(** ** JavaScript strings *)

Module JsString.

(** [s.startsWith(pat)] *)
Fixpoint startsWith (s pat : string) {struct pat} : bool :=
  match pat with
  | EmptyString => true
  | String p pat' =>
      match s with
      | EmptyString => false
      | String c s' => if Ascii.eqb c p then startsWith s' pat' else false
      end
  end.

(** [s.includes(pat)]: [pat] occurs at some index of [s]. *)
Fixpoint includes (s pat : string) : bool :=
  startsWith s pat ||
  match s with
  | EmptyString => false
  | String _ s' => includes s' pat
  end.

(** [s.slice(n)] *)
Fixpoint slice (s : string) (n : nat) {struct n} : string :=
  match n with
  | O => s
  | S n' =>
      match s with
      | EmptyString => EmptyString
      | String _ s' => slice s' n'
      end
  end.

(** [s.replace(pat, rep)] for a string pattern: only the first
    occurrence of [pat] is replaced, wherever it stands.  [rep] is taken
    literally (the script only ever passes the empty string, which has no
    [$] pattern in it). *)
Fixpoint replace (s pat rep : string) : string :=
  if startsWith s pat then rep +:+ slice s (String.length pat)
  else match s with
       | EmptyString => EmptyString
       | String c s' => String c (replace s' pat rep)
       end.

(** [toLowerCase] on code units below 256: A-Z, and the Latin-1 capitals
    0xC0-0xDE except the multiplication sign 0xD7. *)
Definition lower_char (c : Ascii.ascii) : Ascii.ascii :=
  let n := Ascii.nat_of_ascii c in
  if ((65 <=? n) && (n <=? 90)) || ((192 <=? n) && (n <=? 222) && negb (n =? 215))
  then Ascii.ascii_of_nat (n + 32)
  else c.

Fixpoint toLowerCase (s : string) : string :=
  match s with
  | EmptyString => EmptyString
  | String c s' => String (lower_char c) (toLowerCase s')
  end.

(** White space of [trim] among the code units below 256. *)
Definition is_space (c : Ascii.ascii) : bool :=
  let n := Ascii.nat_of_ascii c in
  ((9 <=? n) && (n <=? 13)) || (n =? 32) || (n =? 160).

Fixpoint trimStart (s : string) : string :=
  match s with
  | EmptyString => EmptyString
  | String c s' => if is_space c then trimStart s' else s
  end.

Fixpoint trimEnd (s : string) : string :=
  match s with
  | EmptyString => EmptyString
  | String c s' =>
      match trimEnd s' with
      | EmptyString => if is_space c then EmptyString else String c EmptyString
      | t => String c t
      end
  end.

Definition trim (s : string) : string := trimEnd (trimStart s).

(** The first code unit of a string literal (NUL for the empty one). *)
Definition ch (s : string) : Ascii.ascii :=
  match s with
  | EmptyString => Ascii.zero
  | String c _ => c
  end.

(** The characters of a string, for statements about single characters. *)
Fixpoint chars (s : string) : list Ascii.ascii :=
  match s with
  | EmptyString => []
  | String c s' => c :: chars s'
  end.

End JsString.
Import JsString.

(** ** JavaScript values and exceptions *)

(** The values [JSON.parse] can produce, and [undefined]. Numbers are
    IEEE 754 doubles. An object is the list of its own properties. *)
#[warning="-register-all"]
Inductive value : Type :=
| VUndef
| VNull
| VBool (b : bool)
| VNum (f : float)
| VStr (s : string)
| VArr (elems : list value)
| VObj (props : list (string * value)).

Inductive error : Type :=
| TypeError
| SyntaxError
| SecurityError
| QuotaExceededError.

Inductive result (A : Type) : Type :=
| Ok (a : A)
| Throw (e : error).
Arguments Ok {A} a.
Arguments Throw {A} e.

Definition bind {A B} (m : result A) (k : A -> result B) : result B :=
  match m with
  | Ok a => k a
  | Throw e => Throw e
  end.

Notation "x <- m ;; k" := (bind m (fun x => k))
  (at level 100, m at next level, right associativity).

(** ToBoolean *)
Definition truthy (v : value) : bool :=
  match v with
  | VUndef | VNull => false
  | VBool b => b
  | VNum f => negb (PrimFloat.eqb f 0%float || PrimFloat.is_nan f)
  | VStr s => negb (String.eqb s EmptyString)
  | VArr _ | VObj _ => true
  end.

(** [typeof v === 'object'] *)
Definition typeof_object (v : value) : bool :=
  match v with
  | VNull | VArr _ | VObj _ => true
  | _ => false
  end.

Fixpoint own_property (props : list (string * value)) (k : string) : option value :=
  match props with
  | [] => None
  | (k', v) :: rest => if String.eqb k' k then Some v else own_property rest k
  end.

(** [v.k] for the two property names the script reads off a trail item,
    [label] and [url]: no built-in prototype defines either, so the read
    gives an own property of an object and [undefined] everywhere else,
    and throws on [null] and [undefined]. *)
Definition get_field (v : value) (k : string) : result value :=
  match v with
  | VUndef | VNull => Throw TypeError
  | VObj props => Ok (default VUndef (own_property props k))
  | _ => Ok VUndef
  end.

(** The object literal [{ label: l, url: u }]. *)
Definition mk_entry (l u : string) : value :=
  VObj [("label", VStr l); ("url", VStr u)].

(** [xs.some(f)] and [xs.find(f)] with a callback that can throw. *)
Fixpoint array_some {A} (f : A -> result bool) (xs : list A) : result bool :=
  match xs with
  | [] => Ok false
  | x :: rest => b <- f x ;; if b then Ok true else array_some f rest
  end.

Fixpoint array_find {A} (f : A -> result bool) (xs : list A) : result (option A) :=
  match xs with
  | [] => Ok None
  | x :: rest => b <- f x ;; if b then Ok (Some x) else array_find f rest
  end.

(** [xs.filter(f)] on a value: only an array has the method (an object
    parsed from JSON may own a property named [filter], which is data and
    cannot be called). *)
Definition array_filter (f : value -> bool) (v : value) : result (list value) :=
  match v with
  | VArr elems => Ok (List.filter f elems)
  | _ => Throw TypeError
  end.

(** ** The page hierarchy *)

(** [{ label, level, parent }]; the script writes levels 0 and 1 and never a
    parent. *)
Record HierarchyInfo : Type := {
  label : string;
  level : nat;
  parent : option string
}.

(** [PAGE_HIERARCHY], as [Object.entries] enumerates it. The keys the
    script writes are results of [normalizeUrl]: they begin with a slash, so
    none is an array index and the enumeration is insertion order. A read of
    a name inherited from [Object.prototype] gives a function or an object
    whose [level] is [undefined], which [=== 0] treats like a missing
    entry. *)
Definition hierarchy : Type := list (string * HierarchyInfo).

Fixpoint hierarchy_get (h : hierarchy) (k : string) : option HierarchyInfo :=
  match h with
  | [] => None
  | (k', info) :: rest => if String.eqb k' k then Some info else hierarchy_get rest k
  end.

(** [PAGE_HIERARCHY[k] = info]: an existing key keeps its place. *)
Fixpoint hierarchy_set (h : hierarchy) (k : string) (info : HierarchyInfo) : hierarchy :=
  match h with
  | [] => [(k, info)]
  | (k', old) :: rest =>
      if String.eqb k' k then (k', info) :: rest
      else (k', old) :: hierarchy_set rest k info
  end.

(** ** The document and the storage *)

(** An [a] element: its resolved [href] property, two data attributes, and
    whether it stands inside [#url-resolver]. *)
Record anchor : Type := {
  href : string;
  data_label : option string;
  data_template_url : option string;
  in_url_resolver : bool
}.

Record document : Type := {
  anchors : list anchor;              (* the a elements, in document order *)
  isAdmin_text : option string;       (* textContent of #isAdmin *)
  meta_page_title : option string;    (* content of meta[name=page-title] *)
  data_page_title : option string;    (* dataset.pageTitle of [data-page-title] *)
  meta_page_url : option string;      (* content of meta[name=page-url] *)
  data_page_url : option string;      (* dataset.pageUrl of [data-page-url] *)
  title : string;                     (* document.title *)
  location_pathname : string          (* window.location.pathname *)
}.

(** [localStorage]: its items, whether the page may use it at all, and
    which writes the host accepts (quota). *)
Record localStorage : Type := {
  items : gmap string string;
  accessible : bool;
  accepts : string -> string -> bool
}.

Definition getItem (ls : localStorage) (k : string) : result (option string) :=
  if accessible ls then Ok (items ls !! k) else Throw SecurityError.

Definition setItem (ls : localStorage) (k v : string) : result localStorage :=
  if accessible ls then
    if accepts ls k v
    then Ok {| items := <[k := v]> (items ls);
               accessible := accessible ls; accepts := accepts ls |}
    else Throw QuotaExceededError
  else Throw SecurityError.

Definition removeItem (ls : localStorage) (k : string) : result localStorage :=
  if accessible ls
  then Ok {| items := delete k (items ls);
             accessible := accessible ls; accepts := accepts ls |}
  else Throw SecurityError.

Definition BREADCRUMB_STORAGE_KEY : string := "app_breadcrumbs".

(** ** The engine's state *)

(** The script's globals and what they reach. [breadcrumbList] is the
    element found once when the script is loaded: [None] when the page has
    no [#breadcrumb-list], else the [innerHTML] given to each [li] child. *)
Record State : Type := {
  breadcrumbs : list value;
  PAGE_HIERARCHY : hierarchy;
  storage : localStorage;
  doc : document;
  breadcrumbList : option (list string)
}.

Definition set_breadcrumbs (st : State) (t : list value) : State :=
  {| breadcrumbs := t; PAGE_HIERARCHY := PAGE_HIERARCHY st;
     storage := storage st; doc := doc st; breadcrumbList := breadcrumbList st |}.

Definition set_hierarchy (st : State) (h : hierarchy) : State :=
  {| breadcrumbs := breadcrumbs st; PAGE_HIERARCHY := h;
     storage := storage st; doc := doc st; breadcrumbList := breadcrumbList st |}.

Definition set_storage (st : State) (ls : localStorage) : State :=
  {| breadcrumbs := breadcrumbs st; PAGE_HIERARCHY := PAGE_HIERARCHY st;
     storage := ls; doc := doc st; breadcrumbList := breadcrumbList st |}.

Definition set_breadcrumbList (st : State) (lis : option (list string)) : State :=
  {| breadcrumbs := breadcrumbs st; PAGE_HIERARCHY := PAGE_HIERARCHY st;
     storage := storage st; doc := doc st; breadcrumbList := lis |}.

(** How a statement sequence ends: normally, or by an exception that leaves
    the state as it was at the throw. *)
Inductive outcome : Type :=
| Done (st : State)
| Raised (e : error) (st : State).

(** ** Escaping and markup *)

Definition dq : string := String (Ascii.ascii_of_nat 34) EmptyString.
Definition nl : string := String (Ascii.ascii_of_nat 10) EmptyString.

(** The object [map] of [escapeHtml]; its keys are the characters of the
    class the regular expression matches. *)
Definition escape_map : list (Ascii.ascii * string) :=
  [ (ch "&", "&amp;");
    (ch "<", "&lt;");
    (ch ">", "&gt;");
    (ch dq, "&quot;");
    (ch "'", "&#039;") ].

Fixpoint escape_lookup (m : list (Ascii.ascii * string)) (c : Ascii.ascii) : option string :=
  match m with
  | [] => None
  | (k, e) :: rest => if Ascii.eqb k c then Some e else escape_lookup rest c
  end.

(** [text.replace(re, m => map[m])], where the global regular expression
    [re] is the class of the five keys of [map]. *)
Fixpoint escapeHtml (text : string) : string :=
  match text with
  | EmptyString => EmptyString
  | String c rest =>
      match escape_lookup escape_map c with
      | Some e => e +:+ escapeHtml rest
      | None => String c (escapeHtml rest)
      end
  end.

(** [escapeHtml(v)] for a value: only a string has a callable [replace]. *)
Definition escapeHtml_of (v : value) : result string :=
  match v with
  | VStr s => Ok (escapeHtml s)
  | _ => Throw TypeError
  end.

(** The template of the current page's [li]. *)
Definition crumb_current (label_html : string) : string :=
  "<span class=" +:+ dq +:+ "font-medium text-gray-500" +:+ dq +:+ ">"
  +:+ label_html +:+ "</span>".

(** The template of an ancestor's [li]: a link and the separator icon. *)
Definition crumb_link (url_html label_html : string) : string :=
  nl +:+ "                <a href=" +:+ dq +:+ url_html +:+ dq
  +:+ " class=" +:+ dq
  +:+ "text-blue-600 hover:text-blue-800 font-medium transition-colors duration-200"
  +:+ dq +:+ ">" +:+ label_html +:+ "</a>"
  +:+ nl +:+ "                <svg class=" +:+ dq
  +:+ "flex-shrink-0 w-5 h-5 text-gray-400 mx-2" +:+ dq
  +:+ " fill=" +:+ dq +:+ "currentColor" +:+ dq
  +:+ " viewBox=" +:+ dq +:+ "0 0 20 20" +:+ dq
  +:+ " aria-hidden=" +:+ dq +:+ "true" +:+ dq +:+ ">"
  +:+ nl +:+ "                    <path fill-rule=" +:+ dq +:+ "evenodd" +:+ dq
  +:+ " d=" +:+ dq
  +:+ "M7.293 14.707a1 1 0 010-1.414L10.586 10 7.293 6.707a1 1 0 011.414-1.414l4 4a1 1 0 010 1.414l-4 4a1 1 0 01-1.414 0z"
  +:+ dq +:+ " clip-rule=" +:+ dq +:+ "evenodd" +:+ dq +:+ "></path>"
  +:+ nl +:+ "                </svg>"
  +:+ nl +:+ "            ".

(** ** References: what a snapshot shares with the engine

    The engine itself never changes an array or an entry in place, so the
    rest of the development treats the trail as a value. A caller of
    [getCurrentPath] can, so this module gives arrays and entries an
    identity: a cell of a heap. *)

Module Heap.

Definition loc : Type := positive.

Inductive cell : Type :=
| CArray (elems : list loc)
| CObject (props : list (string * value)).

(** The heap and the global [breadcrumbs], a reference to an array. *)
Record heap_state : Type := {
  cells : gmap loc cell;
  breadcrumbs_ref : loc
}.

Definition array_elems (hs : heap_state) (a : loc) : list loc :=
  match cells hs !! a with
  | Some (CArray elems) => elems
  | _ => []
  end.

(** [() => [...breadcrumbs]]: a new array holding the same element
    references. *)
Definition getCurrentPath (hs : heap_state) : loc * heap_state :=
  let a := fresh (dom (cells hs)) in
  (a, {| cells := <[a := CArray (array_elems hs (breadcrumbs_ref hs))]> (cells hs);
         breadcrumbs_ref := breadcrumbs_ref hs |}).

(** Any change a caller makes to the array [a] ([push], [pop], an index
    assignment, [length = n]): its elements become [elems]. *)
Definition array_assign (hs : heap_state) (a : loc) (elems : list loc) : heap_state :=
  match cells hs !! a with
  | Some (CArray _) =>
      {| cells := <[a := CArray elems]> (cells hs);
         breadcrumbs_ref := breadcrumbs_ref hs |}
  | _ => hs
  end.

Fixpoint props_set (props : list (string * value)) (k : string) (v : value)
  : list (string * value) :=
  match props with
  | [] => [(k, v)]
  | (k', old) :: rest =>
      if String.eqb k' k then (k', v) :: rest else (k', old) :: props_set rest k v
  end.

(** [o[k] = v] on the object [o]. *)
Definition set_property (hs : heap_state) (o : loc) (k : string) (v : value) : heap_state :=
  match cells hs !! o with
  | Some (CObject props) =>
      {| cells := <[o := CObject (props_set props k v)]> (cells hs);
         breadcrumbs_ref := breadcrumbs_ref hs |}
  | _ => hs
  end.

(** The trail as the engine reads it: its array, each element
    dereferenced. *)
Definition trail (hs : heap_state) : list (option cell) :=
  (fun o => cells hs !! o) <$> array_elems hs (breadcrumbs_ref hs).

(** A heap in which the engine's trail is an array of entry objects. *)
Definition well_formed (hs : heap_state) : Prop :=
  exists elems,
    cells hs !! breadcrumbs_ref hs = Some (CArray elems) /\
    Forall (fun o => exists props, cells hs !! o = Some (CObject props)) elems.

End Heap.

(** ** An executable instance of the host's JSON

    [JSON.parse] and [JSON.stringify] are parameters of the engine below.
    This module is one instance, small enough to run inside the proof
    assistant, used for the concrete runs at the end of the file. It covers
    the fragment the engine itself writes and a little more: strings with
    their escapes, arrays, objects, [null], [true], [false]. Numbers are
    outside it: [parse] rejects a number literal and [stringify] has no
    decimal printer (it writes [null]). *)

Module HostJson.

Definition code (c : Ascii.ascii) : nat := Ascii.nat_of_ascii c.

Definition hex_digit (n : nat) : string :=
  String (ch (slice "0123456789abcdef" n)) EmptyString.

Definition quote_char (c : Ascii.ascii) : string :=
  let n := code c in
  if n =? 34 then "\" +:+ dq
  else if n =? 92 then "\\"
  else if n =? 8 then "\b"
  else if n =? 12 then "\f"
  else if n =? 10 then "\n"
  else if n =? 13 then "\r"
  else if n =? 9 then "\t"
  else if n <? 32 then "\u00" +:+ hex_digit (n / 16) +:+ hex_digit (n mod 16)
  else String c EmptyString.

Fixpoint quote_body (s : string) : string :=
  match s with
  | EmptyString => EmptyString
  | String c rest => quote_char c +:+ quote_body rest
  end.

Definition quote (s : string) : string := dq +:+ quote_body s +:+ dq.

Fixpoint stringify (v : value) : string :=
  match v with
  | VUndef | VNull | VNum _ => "null"
  | VBool b => if b then "true" else "false"
  | VStr s => quote s
  | VArr elems =>
      "[" +:+
      (fix go (l : list value) : string :=
         match l with
         | [] => EmptyString
         | x :: rest =>
             match rest with
             | [] => stringify x
             | _ => stringify x +:+ "," +:+ go rest
             end
         end) elems
      +:+ "]"
  | VObj props =>
      "{" +:+
      (fix go (l : list (string * value)) : string :=
         match l with
         | [] => EmptyString
         | (k, x) :: rest =>
             match rest with
             | [] => quote k +:+ ":" +:+ stringify x
             | _ => quote k +:+ ":" +:+ stringify x +:+ "," +:+ go rest
             end
         end) props
      +:+ "}"
  end.

Definition is_ws (c : Ascii.ascii) : bool :=
  let n := code c in (n =? 32) || (n =? 9) || (n =? 10) || (n =? 13).

Fixpoint skip_ws (s : string) : string :=
  match s with
  | EmptyString => EmptyString
  | String c rest => if is_ws c then skip_ws rest else s
  end.

Definition hex_value (c : Ascii.ascii) : option nat :=
  let n := code c in
  if (48 <=? n) && (n <=? 57) then Some (n - 48)
  else if (97 <=? n) && (n <=? 102) then Some (n - 87)
  else if (65 <=? n) && (n <=? 70) then Some (n - 55)
  else None.

Definition unescape (c : Ascii.ascii) : option Ascii.ascii :=
  let n := code c in
  if (n =? 34) || (n =? 92) || (n =? 47) then Some c
  else if n =? 98 then Some (Ascii.ascii_of_nat 8)
  else if n =? 102 then Some (Ascii.ascii_of_nat 12)
  else if n =? 110 then Some (Ascii.ascii_of_nat 10)
  else if n =? 114 then Some (Ascii.ascii_of_nat 13)
  else if n =? 116 then Some (Ascii.ascii_of_nat 9)
  else None.

Definition cons_char (c : Ascii.ascii) (r : option (string * string))
  : option (string * string) :=
  match r with
  | Some (s, rest) => Some (String c s, rest)
  | None => None
  end.

(** The body of a string literal, after its opening quote: the decoded
    string and the text after the closing quote. *)
Fixpoint parse_string (s : string) : option (string * string) :=
  match s with
  | EmptyString => None
  | String c rest =>
      if code c =? 34 then Some (EmptyString, rest)
      else if code c =? 92 then
        match rest with
        | EmptyString => None
        | String e rest1 =>
            if code e =? 117 then
              match rest1 with
              | String h1 (String h2 (String h3 (String h4 rest2))) =>
                  match hex_value h1, hex_value h2, hex_value h3, hex_value h4 with
                  | Some 0, Some 0, Some a, Some b =>
                      cons_char (Ascii.ascii_of_nat (16 * a + b)) (parse_string rest2)
                  | _, _, _, _ => None
                  end
              | _ => None
              end
            else
              match unescape e with
              | Some d => cons_char d (parse_string rest1)
              | None => None
              end
        end
      else if code c <? 32 then None
      else cons_char c (parse_string rest)
  end.

Definition has_key (props : list (string * value)) (k : string) : bool :=
  existsb (fun kv => String.eqb (fst kv) k) props.

Fixpoint parse_value (fuel : nat) (s : string) : option (value * string) :=
  match fuel with
  | O => None
  | S fuel' =>
      match skip_ws s with
      | EmptyString => None
      | String c rest as s' =>
          if code c =? 34 then
            match parse_string rest with
            | Some (str, rest') => Some (VStr str, rest')
            | None => None
            end
          else if code c =? 91 then
            match skip_ws rest with
            | String c2 rest2 =>
                if code c2 =? 93 then Some (VArr [], rest2)
                else match parse_elements fuel' rest with
                     | Some (vs, rest') => Some (VArr vs, rest')
                     | None => None
                     end
            | EmptyString => None
            end
          else if code c =? 123 then
            match skip_ws rest with
            | String c2 rest2 =>
                if code c2 =? 125 then Some (VObj [], rest2)
                else match parse_members fuel' rest with
                     | Some (ms, rest') => Some (VObj ms, rest')
                     | None => None
                     end
            | EmptyString => None
            end
          else if startsWith s' "null" then Some (VNull, slice s' 4)
          else if startsWith s' "true" then Some (VBool true, slice s' 4)
          else if startsWith s' "false" then Some (VBool false, slice s' 5)
          else None
      end
  end
with parse_elements (fuel : nat) (s : string) : option (list value * string) :=
  match fuel with
  | O => None
  | S fuel' =>
      match parse_value fuel' s with
      | Some (v, rest) =>
          match skip_ws rest with
          | String c rest' =>
              if code c =? 44 then
                match parse_elements fuel' rest' with
                | Some (vs, r) => Some (v :: vs, r)
                | None => None
                end
              else if code c =? 93 then Some ([v], rest')
              else None
          | EmptyString => None
          end
      | None => None
      end
  end
with parse_members (fuel : nat) (s : string) : option (list (string * value) * string) :=
  match fuel with
  | O => None
  | S fuel' =>
      match skip_ws s with
      | String q rest0 =>
          if code q =? 34 then
            match parse_string rest0 with
            | Some (k, rest1) =>
                match skip_ws rest1 with
                | String colon rest2 =>
                    if code colon =? 58 then
                      match parse_value fuel' rest2 with
                      | Some (v, rest3) =>
                          match skip_ws rest3 with
                          | String c rest4 =>
                              if code c =? 44 then
                                match parse_members fuel' rest4 with
                                | Some (ms, r) =>
                                    (* a repeated key: the later member wins *)
                                    Some (if has_key ms k then ms else (k, v) :: ms, r)
                                | None => None
                                end
                              else if code c =? 125 then Some ([(k, v)], rest4)
                              else None
                          | EmptyString => None
                          end
                      | None => None
                      end
                    else None
                | EmptyString => None
                end
            | None => None
            end
          else None
      | EmptyString => None
      end
  end.

Definition parse (text : string) : result value :=
  match parse_value (2 * String.length text + 2) text with
  | Some (v, rest) =>
      match skip_ws rest with
      | EmptyString => Ok v
      | _ => Throw SyntaxError
      end
  | None => Throw SyntaxError
  end.

(** The coercion of a non-string value to a property key is not covered
    either: this instance throws. *)
Definition to_property_key (v : value) : result string := Throw TypeError.

End HostJson.

(** ** Concrete pages

    The states of the concrete runs at the end of the file. *)

Module Example.

Definition origin : string := "https://app.example".

Definition empty_storage : localStorage :=
  {| items := ∅; accessible := true; accepts := fun _ _ => true |}.

(** A page titled Reports at [/reports/], with no link, no role marker
    and no page metadata. *)
Definition reports_page : document :=
  {| anchors := []; isAdmin_text := None;
     meta_page_title := None; data_page_title := None;
     meta_page_url := None; data_page_url := None;
     title := "Reports"; location_pathname := "/reports/" |}.

(** The same page for an administrator. *)
Definition admin_reports_page : document :=
  {| anchors := []; isAdmin_text := Some " Admin ";
     meta_page_title := None; data_page_title := None;
     meta_page_url := None; data_page_url := None;
     title := "Reports"; location_pathname := "/reports/" |}.

(** The script's state when it has just been loaded. *)
Definition fresh : State :=
  {| breadcrumbs := []; PAGE_HIERARCHY := [];
     storage := empty_storage; doc := reports_page;
     breadcrumbList := Some [] |}.

Definition admin_trail : list value :=
  [ mk_entry "Admin Dashboard" "/admin_dashboard/";
    mk_entry "Edit Employee" "/employees/5/edit/" ].

(** A later moment of a page view: a trail in memory, nothing stored. *)
Definition visited : State :=
  {| breadcrumbs := admin_trail; PAGE_HIERARCHY := [];
     storage := empty_storage; doc := reports_page;
     breadcrumbList := Some [] |}.

(** A hierarchy whose only root was classified by its URL: the link
    [/admin_dashboard/] labelled Admin Home. *)
Definition url_classified : State :=
  {| breadcrumbs := [];
     PAGE_HIERARCHY :=
       [("/admin_dashboard/",
         {| label := "Admin Home"; level := 0; parent := None |})];
     storage := empty_storage; doc := reports_page;
     breadcrumbList := Some [] |}.

Definition admin_fresh : State :=
  {| breadcrumbs := []; PAGE_HIERARCHY := [];
     storage := empty_storage; doc := admin_reports_page;
     breadcrumbList := Some [] |}.

(** The stored text: a JSON list of one object that has the label A and
    no url. *)
Definition label_only_text : string :=
  "[{" +:+ dq +:+ "label" +:+ dq +:+ ":" +:+ dq +:+ "A" +:+ dq +:+ "}]".

Definition label_only_stored : State :=
  {| breadcrumbs := admin_trail; PAGE_HIERARCHY := [];
     storage := {| items := {[ BREADCRUMB_STORAGE_KEY := label_only_text ]};
                   accessible := true; accepts := fun _ _ => true |};
     doc := reports_page; breadcrumbList := Some [] |}.

(** A trail whose current page has a script tag in its title. *)
Definition scripted : State :=
  {| breadcrumbs :=
       [ mk_entry "Employee Dashboard" "/employee_dashboard/";
         mk_entry "<script>alert(1)</script>" "/notes/" ];
     PAGE_HIERARCHY := [];
     storage := empty_storage; doc := reports_page;
     breadcrumbList := Some [] |}.

(** A heap with the trail array at 1 and one entry object at 2. *)
Definition one_entry_heap : Heap.heap_state :=
  {| Heap.cells :=
       {[ 1%positive := Heap.CArray [2%positive];
          2%positive := Heap.CObject [("label", VStr "Home"); ("url", VStr "/home/")] ]};
     Heap.breadcrumbs_ref := 1%positive |}.

(** The page that edits employee 5, seen by an administrator; the route
    catalog declares the admin dashboard only. *)
Definition edit_employee_page : document :=
  {| anchors :=
       [ {| href := "https://app.example/admin_dashboard/";
            data_label := Some "Admin Dashboard";
            data_template_url := Some "/admin_dashboard/";
            in_url_resolver := true |} ];
     isAdmin_text := Some "admin";
     meta_page_title := Some "Edit Employee"; data_page_title := None;
     meta_page_url := None; data_page_url := None;
     title := "Timestamp"; location_pathname := "/employees/5/edit/" |}.

Definition employee_dashboard_page : document :=
  {| anchors := []; isAdmin_text := None;
     meta_page_title := Some "Employee Dashboard"; data_page_title := None;
     meta_page_url := None; data_page_url := None;
     title := "Timestamp"; location_pathname := "/employee_dashboard/" |}.

Definition profile_page : document :=
  {| anchors := []; isAdmin_text := None;
     meta_page_title := None; data_page_title := None;
     meta_page_url := None; data_page_url := None;
     title := "My Profile"; location_pathname := "/profile/" |}.

Definition on_page (d : document) (ls : localStorage) : State :=
  {| breadcrumbs := []; PAGE_HIERARCHY := [];
     storage := ls; doc := d; breadcrumbList := Some [] |}.

(** A stored record whose only entry has the boolean true as its label
    and as its url. *)
Definition booleans_text : string :=
  "[{" +:+ dq +:+ "label" +:+ dq +:+ ":true," +:+ dq +:+ "url" +:+ dq +:+ ":true}]".

Definition booleans_stored : localStorage :=
  {| items := {[ BREADCRUMB_STORAGE_KEY := booleans_text ]};
     accessible := true; accepts := fun _ _ => true |}.

(** A route catalog that declares the same url twice, first as Start and
    then as Main Dashboard, on the profile page. *)
Definition twice_declared_page : document :=
  {| anchors :=
       [ {| href := "https://app.example/home/";
            data_label := Some "Start";
            data_template_url := Some "/home/";
            in_url_resolver := true |};
         {| href := "/home/";
            data_label := Some "Main Dashboard";
            data_template_url := Some "/home/";
            in_url_resolver := true |} ];
     isAdmin_text := None;
     meta_page_title := None; data_page_title := None;
     meta_page_url := None; data_page_url := None;
     title := "My Profile"; location_pathname := "/profile/" |}.

(** A trail whose first entry has an empty label. *)
Definition untitled_trail : list value :=
  [ mk_entry EmptyString "/untitled/"; mk_entry "Reports" "/reports/" ].

End Example.

(** ** The engine *)

Section Engine.

(** [window.location.origin] *)
Variable origin : string.
(** [JSON.parse], which throws a [SyntaxError] on text that is not JSON,
    and [JSON.stringify] on a value without cycles. *)
Variable JSON_parse : string -> result value.
Variable JSON_stringify : value -> string.
(** The host's coercion of a value that is not a string to a property
    key (it prints numbers and joins arrays, and can throw). *)
Variable ToPropertyKey : value -> result string.

(** *** normalizeUrl *)

Definition normalizeUrl (url : string) : string :=
  let path := replace url origin EmptyString in
  if startsWith path "/" then path else "/" +:+ path.

(** [normalizeUrl(v)] for a value: only a string has a callable
    [replace]. *)
Definition normalizeUrl_of (url : value) : result string :=
  match url with
  | VStr s => Ok (normalizeUrl s)
  | _ => Throw TypeError
  end.

(** *** isDashboardPage *)

Definition urlPatterns : list string :=
  ["dashboard"; "admin_dashboard"; "employee_dashboard"].

(** [url.includes(pattern)]: a substring test on a string, a membership
    test on an array, and a [TypeError] on anything else. *)
Definition url_includes (url : value) (pattern : string) : result bool :=
  match url with
  | VStr s => Ok (includes s pattern)
  | VArr elems =>
      Ok (existsb (fun e => match e with
                            | VStr s => String.eqb s pattern
                            | _ => false
                            end) elems)
  | _ => Throw TypeError
  end.

Definition property_key (v : value) : result string :=
  match v with
  | VStr s => Ok s
  | _ => ToPropertyKey v
  end.

Definition isDashboardPage (h : hierarchy) (url lbl : value) : result bool :=
  hasUrlPattern <- array_some (url_includes url) urlPatterns ;;
  text <- match lbl with
          | VUndef => Ok EmptyString          (* the default [label = ''] *)
          | VStr s => Ok s
          | _ => Throw TypeError              (* no [toLowerCase] *)
          end ;;
  let hasLabelPattern := includes (toLowerCase text) "dashboard" in
  key <- property_key url ;;
  let isRootLevel :=
    match hierarchy_get h key with
    | Some info => level info =? 0
    | None => false
    end in
  Ok (hasUrlPattern || hasLabelPattern || isRootLevel).

(** *** getDashboardPage *)

(** The callback of [breadcrumbs.find]. *)
Definition item_is_dashboard (h : hierarchy) (item : value) : result bool :=
  url <- get_field item "url" ;;
  lbl <- get_field item "label" ;;
  isDashboardPage h url lbl.

(** The callback of [Object.entries(PAGE_HIERARCHY).find]. *)
Definition entry_is_dashboard (e : string * HierarchyInfo) : bool :=
  (level (snd e) =? 0) && includes (toLowerCase (label (snd e))) "dashboard".

Definition isAdmin (d : document) : bool :=
  match isAdmin_text d with
  | Some t => String.eqb (toLowerCase (trim t)) "admin"
  | None => false
  end.

(** The selector [a[data-label*=needle]]. *)
Definition data_label_contains (needle : string) (a : anchor) : bool :=
  match data_label a with
  | Some l => includes l needle
  | None => false
  end.

Definition getDashboardPage (st : State) : result value :=
  dashboardBreadcrumb <- array_find (item_is_dashboard (PAGE_HIERARCHY st)) (breadcrumbs st) ;;
  match (match dashboardBreadcrumb with
         | Some item => if truthy item then Some item else None
         | None => None
         end) with
  | Some item => Ok item
  | None =>
      match List.find entry_is_dashboard (PAGE_HIERARCHY st) with
      | Some dashboardEntry =>
          Ok (mk_entry (label (snd dashboardEntry)) (fst dashboardEntry))
      | None =>
          let admin := isAdmin (doc st) in
          match List.find
                  (data_label_contains
                     (if admin then "Admin Dashboard" else "Employee Dashboard"))
                  (anchors (doc st)) with
          | Some dashboardLink =>
              Ok (mk_entry (default EmptyString (data_label dashboardLink))
                           (normalizeUrl (href dashboardLink)))
          | None =>
              let fallbackLabel :=
                if admin then "Admin Dashboard" else "Employee Dashboard" in
              let fallbackUrl :=
                if admin then "/admin_dashboard/" else "/employee_dashboard/" in
              Ok (mk_entry fallbackLabel fallbackUrl)
          end
      end
  end.

(** *** buildBreadcrumbPath *)

Definition buildBreadcrumbPath (st : State) (currentLabel currentUrl : string)
  : result (list value) :=
  isDashboard <- isDashboardPage (PAGE_HIERARCHY st) (VStr currentUrl) (VStr currentLabel) ;;
  if isDashboard then Ok [mk_entry currentLabel currentUrl]
  else
    dashboard <- getDashboardPage st ;;
    dashboardUrl <- get_field dashboard "url" ;;
    normalized <- normalizeUrl_of dashboardUrl ;;
    Ok ((if negb (String.eqb normalized (normalizeUrl currentUrl))
         then [dashboard] else [])
        ++ [mk_entry currentLabel currentUrl]).

(** *** loadBreadcrumbs and saveBreadcrumbs *)

(** The callback of the validating [filter]. Past [item && typeof item
    === 'object'] the item is an object or an array, so the two property
    reads cannot throw. *)
Definition valid_item (item : value) : bool :=
  truthy item && typeof_object item &&
  match get_field item "label" with Ok l => truthy l | Throw _ => false end &&
  match get_field item "url" with Ok u => truthy u | Throw _ => false end.

(** The [try] block assigns the parsed value and then the filtered one;
    when the [filter] throws, the handler overwrites the first assignment,
    so only the last one is kept here. *)
Definition loadBreadcrumbs (st : State) : State :=
  let body : result State :=
    stored <- getItem (storage st) BREADCRUMB_STORAGE_KEY ;;
    match stored with
    | Some text =>
        if truthy (VStr text) then
          parsed <- JSON_parse text ;;
          kept <- array_filter valid_item parsed ;;
          Ok (set_breadcrumbs st kept)
        else Ok st
    | None => Ok st
    end in
  match body with
  | Ok st' => st'
  | Throw _ => set_breadcrumbs st []
  end.

Definition saveBreadcrumbs (st : State) : State :=
  match setItem (storage st) BREADCRUMB_STORAGE_KEY
                (JSON_stringify (VArr (breadcrumbs st))) with
  | Ok ls => set_storage st ls
  | Throw _ => st
  end.

(** *** renderBreadcrumbs *)

Definition render_item (isLast : bool) (item : value) : result string :=
  if isLast then
    l <- get_field item "label" ;;
    label_html <- escapeHtml_of l ;;
    Ok (crumb_current label_html)
  else
    u <- get_field item "url" ;;
    url_html <- escapeHtml_of u ;;
    l <- get_field item "label" ;;
    label_html <- escapeHtml_of l ;;
    Ok (crumb_link url_html label_html).

(** The [forEach]: one [li] appended per item; a throw leaves the ones
    appended so far. *)
Fixpoint render_items (st : State) (appended : list string) (index : nat)
         (todo : list value) : outcome :=
  match todo with
  | [] => Done (set_breadcrumbList st (Some appended))
  | item :: rest =>
      match render_item (index =? length (breadcrumbs st) - 1) item with
      | Ok html => render_items st (appended ++ [html]) (S index) rest
      | Throw e => Raised e (set_breadcrumbList st (Some appended))
      end
  end.

Definition renderBreadcrumbs (st : State) : outcome :=
  match breadcrumbList st with
  | None => Done st
  | Some _ =>
      if length (breadcrumbs st) =? 0 then Done (set_breadcrumbList st (Some []))
      else render_items st [] 0 (breadcrumbs st)
  end.

(** *** updateBreadcrumb and clearBreadcrumbs *)

Definition updateBreadcrumb (st : State) (lbl url : string) : outcome :=
  match buildBreadcrumbPath st lbl url with
  | Ok path => renderBreadcrumbs (saveBreadcrumbs (set_breadcrumbs st path))
  | Throw e => Raised e st
  end.

Definition clearBreadcrumbs (st : State) : outcome :=
  let st1 := set_breadcrumbs st [] in
  match removeItem (storage st1) BREADCRUMB_STORAGE_KEY with
  | Ok ls => renderBreadcrumbs (set_storage st1 ls)
  | Throw e => Raised e st1
  end.

(** *** initializePageHierarchy and the page-ready handler *)

(** [a || b] on strings read from the page: a missing element or an
    empty string falls through to [b]. *)
Definition or_else (a : option string) (b : string) : string :=
  match a with
  | Some s => if truthy (VStr s) then s else b
  | None => b
  end.

Definition is_some {A} (o : option A) : bool :=
  match o with Some _ => true | None => false end.

(** The body of the [forEach] over [#url-resolver a[data-template-url][data-label]]. *)
Definition add_link (h : hierarchy) (link : anchor) : hierarchy :=
  let url := normalizeUrl (href link) in
  let lbl := default EmptyString (data_label link) in
  let isDashboard :=
    includes (toLowerCase lbl) "dashboard"
    || includes url "admin_dashboard"
    || includes url "employee_dashboard" in
  hierarchy_set h url
    {| label := lbl; level := if isDashboard then 0 else 1; parent := None |}.

Definition initializePageHierarchy (st : State) : State :=
  let links :=
    List.filter (fun a => in_url_resolver a && is_some (data_template_url a)
                          && is_some (data_label a))
                (anchors (doc st)) in
  let h := fold_left add_link links (PAGE_HIERARCHY st) in
  let currentPath := normalizeUrl (location_pathname (doc st)) in
  match hierarchy_get h currentPath with
  | Some _ => set_hierarchy st h
  | None =>
      let pageTitle :=
        or_else (meta_page_title (doc st)) (or_else (Some (title (doc st))) "Page") in
      let isDashboard :=
        includes (toLowerCase pageTitle) "dashboard"
        || includes currentPath "dashboard" in
      set_hierarchy st
        (hierarchy_set h currentPath
           {| label := pageTitle; level := if isDashboard then 0 else 1;
              parent := None |})
  end.

(** The [DOMContentLoaded] listener. *)
Definition onDOMContentLoaded (st : State) : outcome :=
  let st1 := loadBreadcrumbs (initializePageHierarchy st) in
  let pageLabel :=
    or_else (meta_page_title (doc st1))
            (or_else (data_page_title (doc st1)) (title (doc st1))) in
  let pageUrl :=
    or_else (meta_page_url (doc st1))
            (or_else (data_page_url (doc st1)) (location_pathname (doc st1))) in
  updateBreadcrumb st1 pageLabel (normalizeUrl pageUrl).

(** *** getResolvedUrl *)

(** [document.querySelectorAll('a[href]')]: an anchor without the attribute
    has the empty string as its [href] property, and one with the
    attribute never has. *)
Definition anchors_with_href (d : document) : list anchor :=
  List.filter (fun a => negb (String.eqb (href a) EmptyString)) (anchors d).

(** The test of the loop: the data attribute is the template url, or the
    resolved href contains the template url without its first slash. *)
Definition resolves_template (templateUrl : string) (link : anchor) : bool :=
  match data_template_url link with
  | Some t => String.eqb t templateUrl
  | None => false
  end
  || includes (href link) (replace templateUrl "/" EmptyString).

Definition getResolvedUrl (d : document) (templateUrl : string) : string :=
  match List.find (resolves_template templateUrl) (anchors_with_href d) with
  | Some link => href link
  | None => templateUrl
  end.

(** *** populateSidebar *)

(** An element of the [links] argument: [{ url, label, icon }], the icon
    optional. *)
Record sidebar_link : Type := {
  link_url : string;
  link_label : string;
  link_icon : option string
}.

(** An [a] element as [populateSidebar] leaves it: the url assigned to its
    [href], its classes, the markup assigned to its [innerHTML], and
    whether it got the click listener that calls [localStorage.clear()]. *)
Record sidebar_anchor : Type := {
  sa_href : string;
  sa_classes : list string;
  sa_innerHTML : string;
  sa_clears_storage : bool
}.

(** The pathname of the URL an assigned [href] resolves to, the host's
    URL parser. *)
Variable pathname_of : string -> string.

Definition sidebar_classes : list string :=
  [ "flex"; "items-center"; "py-2"; "px-3"; "rounded-lg"; "text-gray-700";
    "hover:bg-gray-200"; "hover:text-blue-600"; "transition-colors"; "duration-200" ].

Definition sidebar_html (link : sidebar_link) : string :=
  nl +:+ "            " +:+ or_else (link_icon link) EmptyString
  +:+ nl +:+ "            <span class=" +:+ dq +:+ "ml-3 font-medium" +:+ dq +:+ ">"
  +:+ link_label link +:+ "</span>"
  +:+ nl +:+ "        ".

Definition sidebar_anchor_of (d : document) (link : sidebar_link) : sidebar_anchor :=
  {| sa_href := link_url link;
     sa_classes :=
       sidebar_classes
       ++ (if String.eqb (location_pathname d) (pathname_of (link_url link))
           then ["bg-blue-100"; "text-blue-600"] else []);
     sa_innerHTML := sidebar_html link;
     sa_clears_storage := String.eqb (toLowerCase (link_label link)) "logout" |}.

(** [sidebarNav] is the children of [#sidebar-nav], [None] when the page
    has no such element. *)
Definition populateSidebar (d : document) (sidebarNav : option (list sidebar_anchor))
           (links : list sidebar_link) : option (list sidebar_anchor) :=
  match sidebarNav with
  | None => None
  | Some _ => Some (List.map (sidebar_anchor_of d) links)
  end.

(** ** Vocabulary of the statements *)

(** A [BreadcrumbEntry] of the data model: its label and its url are
    strings. *)
Definition entry_typed (item : value) : bool :=
  match get_field item "label", get_field item "url" with
  | Ok (VStr _), Ok (VStr _) => true
  | _, _ => false
  end.

Definition entry_url (item : value) : option string :=
  match get_field item "url" with
  | Ok (VStr u) => Some u
  | _ => None
  end.

(** The normalised form: an origin-relative path, that is, a string with
    a leading slash. *)
Definition url_normalized (u : string) : bool := startsWith u "/".

Definition entry_normalized (item : value) : bool :=
  match entry_url item with
  | Some u => url_normalized u
  | None => false
  end.

(** No two adjacent entries have equal normalised URLs. *)
Fixpoint adjacent_distinct (t : list value) : bool :=
  match t with
  | a :: rest =>
      match rest with
      | b :: _ =>
          match entry_url a, entry_url b with
          | Some ua, Some ub =>
              negb (String.eqb (normalizeUrl ua) (normalizeUrl ub))
          | _, _ => false
          end && adjacent_distinct rest
      | [] => true
      end
  | [] => true
  end.

(** The needle of the role's selector, and the role's fixed fallback. *)
Definition role_needle (d : document) : string :=
  if isAdmin d then "Admin Dashboard" else "Employee Dashboard".

Definition role_default (d : document) : value :=
  if isAdmin d then mk_entry "Admin Dashboard" "/admin_dashboard/"
  else mk_entry "Employee Dashboard" "/employee_dashboard/".

(** The resolution order in the words of the specification: (a) an entry
    of the trail that is a dashboard page, (b) the first hierarchy entry
    with level 0, (c) the known route of the role, (d) the fixed default
    of the lower-privilege role. *)
Definition resolveDashboard_spec (st : State) : result value :=
  inTrail <- array_find (item_is_dashboard (PAGE_HIERARCHY st)) (breadcrumbs st) ;;
  match inTrail with
  | Some item => Ok item
  | None =>
      match List.find (fun e => level (snd e) =? 0) (PAGE_HIERARCHY st) with
      | Some e => Ok (mk_entry (label (snd e)) (fst e))
      | None =>
          match List.find (data_label_contains (role_needle (doc st)))
                          (anchors (doc st)) with
          | Some a =>
              Ok (mk_entry (default EmptyString (data_label a))
                           (normalizeUrl (href a)))
          | None => Ok (mk_entry "Employee Dashboard" "/employee_dashboard/")
          end
      end
  end.

(** The resolution order the script follows, as a relation between a
    state and the entry it resolves to. Each rule applies only when no
    earlier rule does, and takes the first match in its list. *)
Definition no_dashboard_in_trail (st : State) : Prop :=
  forall item, item ∈ breadcrumbs st ->
               item_is_dashboard (PAGE_HIERARCHY st) item = Ok false.

Definition no_dashboard_in_hierarchy (st : State) : Prop :=
  forall e, e ∈ PAGE_HIERARCHY st -> entry_is_dashboard e = false.

Inductive resolves (st : State) : value -> Prop :=
| resolves_trail (i : nat) (item : value) :
    breadcrumbs st !! i = Some item ->
    item_is_dashboard (PAGE_HIERARCHY st) item = Ok true ->
    (forall j other, j < i -> breadcrumbs st !! j = Some other ->
                     item_is_dashboard (PAGE_HIERARCHY st) other = Ok false) ->
    resolves st item
| resolves_hierarchy (i : nat) (url : string) (info : HierarchyInfo) :
    no_dashboard_in_trail st ->
    PAGE_HIERARCHY st !! i = Some (url, info) ->
    level info = 0 ->
    includes (toLowerCase (label info)) "dashboard" = true ->
    (forall j e, j < i -> PAGE_HIERARCHY st !! j = Some e ->
                 entry_is_dashboard e = false) ->
    resolves st (mk_entry (label info) url)
| resolves_role_link (i : nat) (a : anchor) (l : string) :
    no_dashboard_in_trail st ->
    no_dashboard_in_hierarchy st ->
    anchors (doc st) !! i = Some a ->
    data_label a = Some l ->
    includes l (role_needle (doc st)) = true ->
    (forall j b, j < i -> anchors (doc st) !! j = Some b ->
                 data_label_contains (role_needle (doc st)) b = false) ->
    resolves st (mk_entry l (normalizeUrl (href a)))
| resolves_role_default :
    no_dashboard_in_trail st ->
    no_dashboard_in_hierarchy st ->
    (forall b, b ∈ anchors (doc st) ->
               data_label_contains (role_needle (doc st)) b = false) ->
    resolves st (role_default (doc st)).

(** ** Strings *)

Lemma startsWith_empty (s : string) : startsWith s EmptyString = true.
Proof. reflexivity. Qed.

Lemma includes_cons (c : Ascii.ascii) (s pat : string) :
  includes (String c s) pat = startsWith (String c s) pat || includes s pat.
Proof. reflexivity. Qed.

Lemma replace_absent (s pat rep : string) :
  includes s pat = false -> replace s pat rep = s.
Proof.
  induction s as [|c s IH]; cbn [includes replace]; intros H.
  - apply orb_false_iff in H as [-> _]. reflexivity.
  - apply orb_false_iff in H as [-> H]. f_equal. auto.
Qed.

Lemma startsWith_app_slash (s : string) : startsWith ("/" +:+ s) "/" = true.
Proof. reflexivity. Qed.

(** ** normalizeUrl *)

Lemma normalizeUrl_leading_slash (url : string) :
  url_normalized (normalizeUrl url) = true.
Proof.
  unfold url_normalized, normalizeUrl.
  destruct (startsWith (replace url origin EmptyString) "/") eqn:E; [exact E|].
  apply startsWith_app_slash.
Qed.

Lemma normalizeUrl_fixed (u : string) :
  url_normalized u = true -> includes u origin = false -> normalizeUrl u = u.
Proof.
  unfold url_normalized, normalizeUrl. intros Hs Ho.
  rewrite (replace_absent _ _ _ Ho), Hs. reflexivity.
Qed.

(** C7 (as amended). [normalizeUrl] is idempotent at every URL whose
    normalised form no longer contains the origin text: for such [u],
    normalising [normalizeUrl u] again gives [normalizeUrl u]. *)
Theorem normalizeUrl_idempotent (u : string) :
  includes (normalizeUrl u) origin = false ->
  normalizeUrl (normalizeUrl u) = normalizeUrl u.
Proof.
  intros H. apply normalizeUrl_fixed; [apply normalizeUrl_leading_slash | exact H].
Qed.

(** ** Searching *)

Lemma array_find_Some {A} (f : A -> result bool) (xs : list A) (x : A) :
  array_find f xs = Ok (Some x) ->
  exists i, xs !! i = Some x /\ f x = Ok true /\
            forall j y, j < i -> xs !! j = Some y -> f y = Ok false.
Proof.
  induction xs as [|a xs IH]; simpl; [discriminate|].
  unfold bind. destruct (f a) as [[|]|] eqn:Fa; [| |discriminate].
  - intros [= ->]. exists 0. repeat split; auto. intros j y Hj. lia.
  - intros H. destruct (IH H) as (i & Hi & Hx & Hbefore).
    exists (S i). repeat split; auto.
    intros [|j] y Hj; simpl; [intros [= <-]; exact Fa|].
    apply Hbefore. lia.
Qed.

Lemma array_find_None {A} (f : A -> result bool) (xs : list A) :
  array_find f xs = Ok None -> forall x, x ∈ xs -> f x = Ok false.
Proof.
  induction xs as [|a xs IH]; simpl; intros H x Hx.
  - inversion Hx.
  - unfold bind in H. destruct (f a) as [[|]|] eqn:Fa; try discriminate.
    apply elem_of_cons in Hx as [->|Hx]; auto.
Qed.

Lemma array_find_total {A} (f : A -> result bool) (xs : list A) :
  Forall (fun x => exists b, f x = Ok b) xs -> exists r, array_find f xs = Ok r.
Proof.
  induction 1 as [|a xs [b Fa] _ [r IH]]; simpl; [eauto|].
  unfold bind. rewrite Fa. destruct b; eauto.
Qed.

Lemma find_Some_first {A} (f : A -> bool) (xs : list A) (x : A) :
  List.find f xs = Some x ->
  exists i, xs !! i = Some x /\ f x = true /\
            forall j y, j < i -> xs !! j = Some y -> f y = false.
Proof.
  induction xs as [|a xs IH]; simpl; [discriminate|].
  destruct (f a) eqn:Fa.
  - intros [= ->]. exists 0. repeat split; auto. intros j y Hj. lia.
  - intros H. destruct (IH H) as (i & Hi & Hx & Hbefore).
    exists (S i). repeat split; auto.
    intros [|j] y Hj; simpl; [intros [= <-]; exact Fa|].
    apply Hbefore. lia.
Qed.

Lemma find_None_all {A} (f : A -> bool) (xs : list A) :
  List.find f xs = None -> forall x, x ∈ xs -> f x = false.
Proof.
  induction xs as [|a xs IH]; simpl; intros H x Hx.
  - inversion Hx.
  - destruct (f a) eqn:Fa; [discriminate|].
    apply elem_of_cons in Hx as [->|Hx]; auto.
Qed.

(** ** isDashboardPage *)

(** On two strings the predicate never throws: it is the disjunction of
    the three tests. *)
Lemma isDashboardPage_strings (h : hierarchy) (url lbl : string) :
  isDashboardPage h (VStr url) (VStr lbl) =
  Ok ((includes url "dashboard" || includes url "admin_dashboard"
       || includes url "employee_dashboard")
      || includes (toLowerCase lbl) "dashboard"
      || match hierarchy_get h url with
         | Some info => level info =? 0
         | None => false
         end).
Proof.
  unfold isDashboardPage, urlPatterns, array_some, url_includes, property_key, bind.
  destruct (includes url "dashboard"), (includes url "admin_dashboard"),
    (includes url "employee_dashboard"); reflexivity.
Qed.

Lemma entry_typed_fields (item : value) :
  entry_typed item = true ->
  exists l u, get_field item "label" = Ok (VStr l) /\ get_field item "url" = Ok (VStr u).
Proof.
  unfold entry_typed.
  destruct (get_field item "label") as [[]|]; try discriminate.
  destruct (get_field item "url") as [[]|]; try discriminate.
  eauto.
Qed.

Lemma entry_typed_mk_entry (l u : string) : entry_typed (mk_entry l u) = true.
Proof. reflexivity. Qed.

Lemma item_is_dashboard_typed (h : hierarchy) (item : value) :
  entry_typed item = true -> exists b, item_is_dashboard h item = Ok b.
Proof.
  intros (l & u & Hl & Hu)%entry_typed_fields.
  unfold item_is_dashboard, bind. rewrite Hu, Hl, isDashboardPage_strings. eauto.
Qed.

(** A trail item the predicate accepts is an object: any other value has
    no [url], and [undefined.includes] throws. *)
Lemma item_is_dashboard_truthy (h : hierarchy) (item : value) :
  item_is_dashboard h item = Ok true -> truthy item = true.
Proof.
  destruct item; simpl; auto; discriminate.
Qed.

(** ** getDashboardPage *)

(** Whenever [getDashboardPage] returns, it returns what the resolution
    order prescribes. *)
Lemma getDashboardPage_sound (st : State) (d : value) :
  getDashboardPage st = Ok d -> resolves st d.
Proof.
  unfold getDashboardPage, bind.
  destruct (array_find _ (breadcrumbs st)) as [found|] eqn:Hfind; [|discriminate].
  assert (Hnone : found = None \/ exists item, found = Some item /\ truthy item = true).
  { destruct found as [item|]; [right|left; reflexivity].
    exists item. split; [reflexivity|].
    apply array_find_Some in Hfind as (_ & _ & Hd & _).
    eapply item_is_dashboard_truthy, Hd. }
  destruct Hnone as [->|(item & -> & Htruthy)].
  - pose proof (array_find_None _ _ Hfind) as Htrail.
    destruct (List.find entry_is_dashboard _) as [[url info]|] eqn:Hh.
    + intros [= <-]. apply find_Some_first in Hh as (i & Hi & He & Hbefore).
      unfold entry_is_dashboard in He. simpl in He.
      apply andb_true_iff in He as [Hlevel Hlabel].
      apply Nat.eqb_eq in Hlevel.
      eapply resolves_hierarchy; eauto.
    + pose proof (find_None_all _ _ Hh) as Hhier.
      fold (role_needle (doc st)).
      destruct (List.find (data_label_contains _) _) as [a|] eqn:Ha.
      * intros [= <-]. apply find_Some_first in Ha as (i & Hi & Hc & Hbefore).
        unfold data_label_contains in Hc.
        destruct (data_label a) as [l|] eqn:Hl; [|discriminate]. simpl.
        eapply resolves_role_link; eauto.
      * intros [= <-]. pose proof (find_None_all _ _ Ha) as Hanchors.
        replace (mk_entry _ _) with (role_default (doc st))
          by (unfold role_default, role_needle; destruct (isAdmin (doc st)); reflexivity).
        apply resolves_role_default; auto.
  - rewrite Htruthy. intros [= <-].
    apply array_find_Some in Hfind as (i & Hi & Hd & Hbefore).
    eapply resolves_trail; eauto.
Qed.

Lemma resolves_typed (st : State) (d : value) :
  Forall (fun item => entry_typed item = true) (breadcrumbs st) ->
  resolves st d -> entry_typed d = true.
Proof.
  intros Htyped [i item Hi _ _| | |]; try reflexivity.
  - rewrite Forall_forall in Htyped. apply Htyped.
    eapply list_elem_of_lookup_2, Hi.
  - unfold role_default. destruct (isAdmin (doc st)); reflexivity.
Qed.

Lemma getDashboardPage_total (st : State) :
  Forall (fun item => entry_typed item = true) (breadcrumbs st) ->
  exists d, getDashboardPage st = Ok d.
Proof.
  intros Htyped.
  destruct (array_find_total (item_is_dashboard (PAGE_HIERARCHY st)) (breadcrumbs st))
    as [found Hfind].
  { eapply Forall_impl; [exact Htyped|]. intros item. apply item_is_dashboard_typed. }
  unfold getDashboardPage, bind. rewrite Hfind.
  destruct (match found with Some item => if truthy item then Some item else None
                        | None => None end); [eauto|].
  destruct (List.find entry_is_dashboard _); [eauto|].
  destruct (List.find (data_label_contains _) _); eauto.
Qed.

(** C3 (as amended). [getDashboardPage] follows this order, first match
    wins: (a) the first trail entry that [isDashboardPage] accepts; (b) the
    first hierarchy entry with level 0 whose label contains the word
    dashboard, in any letter case; (c) the first link of the page whose
    data-label contains the dashboard name of the role; (d) the fixed
    default of the role, the administrator's when the role indicator says
    admin and the employee's otherwise. Whatever it returns, in any state,
    is the entry this order prescribes; and in every state whose trail
    entries have a string label and a string url it does return, an entry
    with a string label and a string url. *)
Theorem getDashboardPage_resolution (st : State) :
  (forall d, getDashboardPage st = Ok d -> resolves st d) /\
  (Forall (fun item => entry_typed item = true) (breadcrumbs st) ->
   exists d, getDashboardPage st = Ok d /\ entry_typed d = true).
Proof.
  split; [apply getDashboardPage_sound|].
  intros Htyped. destruct (getDashboardPage_total st Htyped) as [d Hd].
  exists d. split; [exact Hd|].
  eapply resolves_typed; [exact Htyped|]. apply getDashboardPage_sound, Hd.
Qed.

(** ** buildBreadcrumbPath *)

(** What a returned trail looks like, in any state: the current page
    alone, or a resolved dashboard whose normalised URL differs from the
    current page's, followed by the current page. *)
Lemma buildBreadcrumbPath_shape (st : State) (l u : string) (t : list value) :
  buildBreadcrumbPath st l u = Ok t ->
  t = [mk_entry l u] \/
  exists d du,
    getDashboardPage st = Ok d /\ get_field d "url" = Ok (VStr du) /\
    normalizeUrl du <> normalizeUrl u /\ t = [d; mk_entry l u].
Proof.
  unfold buildBreadcrumbPath. rewrite isDashboardPage_strings. unfold bind.
  match goal with |- context [if ?b then _ else _] => destruct b end.
  { intros [= <-]. left. reflexivity. }
  destruct (getDashboardPage st) as [d|] eqn:Hd; [|discriminate].
  destruct (get_field d "url") as [[| |b|f|du|elems|props]|] eqn:Hdu; try discriminate.
  simpl. destruct (String.eqb (normalizeUrl du) (normalizeUrl u)) eqn:E; simpl.
  - intros [= <-]. left. reflexivity.
  - intros [= <-]. right. exists d, du.
    split; [reflexivity|]. split; [exact Hdu|]. split; [|reflexivity].
    apply String.eqb_neq, E.
Qed.

Lemma buildBreadcrumbPath_total (st : State) (l u : string) :
  Forall (fun item => entry_typed item = true) (breadcrumbs st) ->
  exists t, buildBreadcrumbPath st l u = Ok t.
Proof.
  intros Htyped.
  destruct (getDashboardPage_total st Htyped) as [d Hd].
  pose proof (resolves_typed st d Htyped (getDashboardPage_sound st d Hd)) as Hdt.
  apply entry_typed_fields in Hdt as (dl & du & _ & Hdu).
  unfold buildBreadcrumbPath. rewrite isDashboardPage_strings. unfold bind.
  match goal with |- context [if ?b then _ else _] => destruct b end; [eauto|].
  rewrite Hd, Hdu. simpl. eauto.
Qed.

(** C1 (as amended). When [isDashboardPage(currentUrl, currentLabel)] is
    true, [buildBreadcrumbPath] returns exactly one entry, the pair of
    [currentLabel] and [currentUrl] as passed; that entry carries
    [normalizeUrl currentUrl] whenever [currentUrl] already has a leading
    slash and does not contain the origin. *)
Theorem buildBreadcrumbPath_dashboard (st : State) (currentLabel currentUrl : string) :
  isDashboardPage (PAGE_HIERARCHY st) (VStr currentUrl) (VStr currentLabel) = Ok true ->
  buildBreadcrumbPath st currentLabel currentUrl = Ok [mk_entry currentLabel currentUrl]
  /\ (url_normalized currentUrl = true -> includes currentUrl origin = false ->
      buildBreadcrumbPath st currentLabel currentUrl
      = Ok [mk_entry currentLabel (normalizeUrl currentUrl)]).
Proof.
  intros H.
  assert (Hb : buildBreadcrumbPath st currentLabel currentUrl
               = Ok [mk_entry currentLabel currentUrl]).
  { unfold buildBreadcrumbPath. rewrite H. reflexivity. }
  split; [exact Hb|]. intros Hs Ho. rewrite normalizeUrl_fixed; auto.
Qed.

(** C2. For every label and URL and every state, a trail returned by
    [buildBreadcrumbPath] has at most two entries, no two adjacent entries
    with equal normalised URLs, and the current page as its last entry; and
    in every state whose trail entries have a string label and a string url
    [buildBreadcrumbPath] does return a trail. *)
Theorem buildBreadcrumbPath_invariant (st : State) (currentLabel currentUrl : string) :
  (forall t,
      buildBreadcrumbPath st currentLabel currentUrl = Ok t ->
      length t <= 2 /\
      adjacent_distinct t = true /\
      last t = Some (mk_entry currentLabel currentUrl)) /\
  (Forall (fun item => entry_typed item = true) (breadcrumbs st) ->
   exists t, buildBreadcrumbPath st currentLabel currentUrl = Ok t).
Proof.
  split; [|apply buildBreadcrumbPath_total].
  intros t Ht.
  apply buildBreadcrumbPath_shape in Ht as [->|(d & du & _ & Hdu & Hne & ->)].
  - repeat split; simpl; auto.
  - repeat split; simpl; auto.
    unfold entry_url at 1. rewrite Hdu. simpl.
    apply String.eqb_neq in Hne. rewrite Hne. reflexivity.
Qed.

(** C10. For every label and URL and every state, a trail returned by
    [buildBreadcrumbPath] is non-empty and ends with exactly the pair of
    [currentLabel] and [currentUrl], both as passed; and in every state
    whose trail entries have a string label and a string url
    [buildBreadcrumbPath] does return a trail. *)
Theorem buildBreadcrumbPath_last_verbatim (st : State) (currentLabel currentUrl : string) :
  (forall t,
      buildBreadcrumbPath st currentLabel currentUrl = Ok t ->
      exists ancestors,
        t = ancestors ++ [VObj [("label", VStr currentLabel); ("url", VStr currentUrl)]]) /\
  (Forall (fun item => entry_typed item = true) (breadcrumbs st) ->
   exists t, buildBreadcrumbPath st currentLabel currentUrl = Ok t).
Proof.
  split; [|apply buildBreadcrumbPath_total].
  intros t Ht.
  apply buildBreadcrumbPath_shape in Ht as [->|(d & du & _ & _ & _ & ->)].
  - exists []. reflexivity.
  - exists [d]. reflexivity.
Qed.

(** ** loadBreadcrumbs and saveBreadcrumbs *)

(** What the validating filter keeps: the objects whose [label] and [url]
    are both truthy. *)
Lemma valid_item_spec (item : value) :
  valid_item item = true <->
  exists props l u,
    item = VObj props /\
    own_property props "label" = Some l /\ truthy l = true /\
    own_property props "url" = Some u /\ truthy u = true.
Proof.
  split.
  - destruct item as [| |b|f|s|elems|props];
      try (unfold valid_item; simpl; rewrite ?andb_false_r; simpl; discriminate).
    unfold valid_item, get_field. simpl.
    destruct (own_property props "label") as [l|] eqn:Hl; [|discriminate].
    destruct (own_property props "url") as [u|] eqn:Hu; simpl;
      [|rewrite andb_false_r; discriminate].
    intros [Ht1 Ht2]%andb_true_iff. exists props, l, u. auto.
  - intros (props & l & u & -> & Hl & Htl & Hu & Htu).
    unfold valid_item, get_field. simpl. rewrite Hl, Hu. simpl.
    rewrite Htl, Htu. reflexivity.
Qed.

Lemma valid_item_mk_entry (l u : string) :
  l <> EmptyString -> u <> EmptyString -> valid_item (mk_entry l u) = true.
Proof.
  intros Hl Hu. apply valid_item_spec. exists [("label", VStr l); ("url", VStr u)], (VStr l), (VStr u).
  simpl. apply String.eqb_neq in Hl, Hu. rewrite Hl, Hu. auto.
Qed.

Lemma filter_all {A} (f : A -> bool) (xs : list A) :
  Forall (fun x => f x = true) xs -> List.filter f xs = xs.
Proof.
  induction 1 as [|x xs Hx _ IH]; simpl; [reflexivity|]. rewrite Hx, IH. reflexivity.
Qed.

Lemma loadBreadcrumbs_frame (st : State) :
  PAGE_HIERARCHY (loadBreadcrumbs st) = PAGE_HIERARCHY st /\
  storage (loadBreadcrumbs st) = storage st /\
  doc (loadBreadcrumbs st) = doc st /\
  breadcrumbList (loadBreadcrumbs st) = breadcrumbList st.
Proof.
  unfold loadBreadcrumbs, bind.
  destruct (getItem _ _) as [[text|]|]; auto.
  destruct (truthy (VStr text)); auto.
  destruct (JSON_parse text) as [v|]; auto.
  destruct (array_filter valid_item v); auto.
Qed.

(** C4 (as amended). [loadBreadcrumbs] is total: no exception reaches the
    caller. It changes nothing but the in-memory trail, and
    - when the storage cannot be read, or the slot holds text that is not
      JSON, or JSON that is not a list, the trail becomes empty;
    - when the slot is absent or holds the empty string, the in-memory
      trail is left as it is (it is empty only if it was);
    - when the slot holds a list, the trail becomes that list without the
      elements that are not objects with a truthy [label] and a truthy
      [url], the others kept in order; a stored list whose only element
      has a label and no url gives the empty trail. *)
Theorem loadBreadcrumbs_fail_soft (st : State) :
  let stored := items (storage st) !! BREADCRUMB_STORAGE_KEY in
  let st' := loadBreadcrumbs st in
  (PAGE_HIERARCHY st' = PAGE_HIERARCHY st /\ storage st' = storage st /\
   doc st' = doc st /\ breadcrumbList st' = breadcrumbList st) /\
  (accessible (storage st) = false -> breadcrumbs st' = []) /\
  (accessible (storage st) = true ->
   (stored = None \/ stored = Some EmptyString -> st' = st) /\
   (forall text, stored = Some text -> text <> EmptyString ->
      match JSON_parse text with
      | Ok (VArr elems) =>
          breadcrumbs st' = List.filter valid_item elems /\
          (elems = [VObj [("label", VStr "A")]] -> breadcrumbs st' = [])
      | Ok _ | Throw _ => breadcrumbs st' = []
      end)).
Proof.
  cbv zeta. split; [apply loadBreadcrumbs_frame|].
  unfold loadBreadcrumbs, getItem, bind.
  destruct (accessible (storage st)); (split; [|]); try discriminate; auto.
  intros _. split.
  - intros [-> | ->]; reflexivity.
  - intros text -> Hne. apply String.eqb_neq in Hne.
    unfold truthy. rewrite Hne. simpl.
    destruct (JSON_parse text) as [[| |b|f|s|elems|props]|]; simpl; try reflexivity.
    split; [reflexivity|]. intros ->. reflexivity.
Qed.

(** C5. Saving a well-formed trail and loading it again gives the trail
    back: for every trail [t] whose entries are pairs of a non-empty
    label and a non-empty url (of any length, so also of length 0 to 2),
    when the storage takes the write and the host's JSON reads back what
    it wrote for [t], [loadBreadcrumbs] after [saveBreadcrumbs] yields
    [t], whatever the in-memory trail was in between. *)
Theorem save_load_roundtrip (st : State) (t inMemory : list value) :
  Forall (fun item => exists l u,
              item = mk_entry l u /\ l <> EmptyString /\ u <> EmptyString) t ->
  accessible (storage st) = true ->
  accepts (storage st) BREADCRUMB_STORAGE_KEY (JSON_stringify (VArr t)) = true ->
  JSON_parse (JSON_stringify (VArr t)) = Ok (VArr t) ->
  JSON_stringify (VArr t) <> EmptyString ->
  breadcrumbs
    (loadBreadcrumbs
       (set_breadcrumbs (saveBreadcrumbs (set_breadcrumbs st t)) inMemory))
  = t.
Proof.
  intros Hwf Hacc Hquota Hjson Hne.
  assert (Hvalid : Forall (fun item => valid_item item = true) t).
  { eapply Forall_impl; [exact Hwf|].
    intros item (l & u & -> & Hl & Hu). apply valid_item_mk_entry; auto. }
  unfold saveBreadcrumbs, setItem. simpl. rewrite Hacc, Hquota.
  unfold loadBreadcrumbs, getItem, bind. simpl.
  rewrite lookup_insert_eq.
  apply String.eqb_neq in Hne. unfold truthy. rewrite Hne. simpl.
  rewrite Hjson. simpl. apply filter_all, Hvalid.
Qed.

(** ** More on strings: occurrences and concatenation *)

Lemma append_cons (x : Ascii.ascii) (a b : string) :
  String x a +:+ b = String x (a +:+ b).
Proof. reflexivity. Qed.

Lemma append_assoc (a b c : string) : (a +:+ b) +:+ c = a +:+ (b +:+ c).
Proof.
  induction a as [|x a IH]; [reflexivity|]. rewrite !append_cons, IH. reflexivity.
Qed.

Lemma chars_app (a b : string) : chars (a +:+ b) = chars a ++ chars b.
Proof.
  induction a as [|x a IH]; [reflexivity|].
  rewrite append_cons. cbn [chars]. rewrite IH. reflexivity.
Qed.

Lemma startsWith_app (p b : string) : startsWith (p +:+ b) p = true.
Proof.
  induction p as [|x p IH]; [reflexivity|].
  rewrite append_cons. cbn [startsWith]. rewrite Ascii.eqb_refl. exact IH.
Qed.

Lemma startsWith_split (s p : string) :
  startsWith s p = true -> exists b, s = p +:+ b.
Proof.
  revert s. induction p as [|x p IH]; intros s; [exists s; reflexivity|].
  destruct s as [|c s]; [discriminate|]. cbn [startsWith].
  destruct (Ascii.eqb c x) eqn:E; [|discriminate].
  apply Ascii.eqb_eq in E as ->. intros [b ->]%IH. exists b. reflexivity.
Qed.

Lemma includes_app (a p b : string) : includes (a +:+ p +:+ b) p = true.
Proof.
  induction a as [|x a IH].
  - change (EmptyString +:+ p +:+ b) with (p +:+ b).
    destruct (p +:+ b) eqn:E; cbn [includes]; rewrite <- E, startsWith_app; reflexivity.
  - rewrite append_cons, includes_cons, IH. apply orb_true_r.
Qed.

Lemma includes_split (s p : string) :
  includes s p = true -> exists a b, s = a +:+ p +:+ b.
Proof.
  induction s as [|c s IH]; cbn [includes].
  - rewrite orb_false_r. intros [b ->]%startsWith_split. exists EmptyString, b. reflexivity.
  - intros [H|H]%orb_true_iff.
    + apply startsWith_split in H as [b ->]. exists EmptyString, b. reflexivity.
    + apply IH in H as (a & b & ->). exists (String c a), b. reflexivity.
Qed.

(** A text without the first character of a pattern cannot hold the start
    of an occurrence. *)
Lemma includes_skip (e rest : string) (x : Ascii.ascii) (p : string) :
  Forall (fun c => c <> x) (chars e) ->
  includes (e +:+ rest) (String x p) = includes rest (String x p).
Proof.
  induction e as [|c e IH]; [reflexivity|].
  cbn [chars]. intros [Hc He]%Forall_cons.
  rewrite append_cons, includes_cons, (IH He).
  cbn [startsWith]. apply Ascii.eqb_neq in Hc. rewrite Hc. reflexivity.
Qed.

(** ** escapeHtml *)

Lemma escapeHtml_app (a b : string) :
  escapeHtml (a +:+ b) = escapeHtml a +:+ escapeHtml b.
Proof.
  induction a as [|x a IH]; [reflexivity|].
  rewrite append_cons. cbn [escapeHtml]. rewrite IH.
  destruct (escape_lookup escape_map x); [rewrite append_assoc|]; reflexivity.
Qed.

Lemma escape_lookup_spec (m : list (Ascii.ascii * string)) (x : Ascii.ascii) :
  match escape_lookup m x with
  | Some e => In (x, e) m
  | None => Forall (fun kv => fst kv <> x) m
  end.
Proof.
  induction m as [|[k e] m IH]; cbn [escape_lookup]; [constructor|].
  destruct (Ascii.eqb k x) eqn:E.
  - apply Ascii.eqb_eq in E as ->. left. reflexivity.
  - apply Ascii.eqb_neq in E. destruct (escape_lookup m x).
    + right. exact IH.
    + constructor; [exact E|exact IH].
Qed.

(** The four characters that open or close markup never occur in escaped
    text. *)
Lemma escapeHtml_no_markup (text : string) :
  Forall (fun c => c <> ch "<" /\ c <> ch ">" /\ c <> ch dq /\ c <> ch "'")
         (chars (escapeHtml text)).
Proof.
  induction text as [|x text IH]; [constructor|].
  cbn [escapeHtml]. pose proof (escape_lookup_spec escape_map x) as H.
  destruct (escape_lookup escape_map x) as [e|].
  - rewrite chars_app. apply Forall_app. split; [|exact IH].
    cbn in H.
    repeat (destruct H as [[= <- <-]|H];
            [repeat constructor; intros Hc; cbv in Hc; discriminate Hc|]).
    destruct H.
  - cbn [chars]. constructor; [|exact IH].
    unfold escape_map in H. repeat (apply Forall_cons in H as [? H]).
    cbn [fst] in *. repeat split; congruence.
Qed.

Lemma slice_app (a b : string) (i : nat) :
  length (chars a) <= i -> slice (a +:+ b) i = slice b (i - length (chars a)).
Proof.
  revert i. induction a as [|x a IH]; intros i; cbn [chars length].
  - intros _. rewrite Nat.sub_0_r. reflexivity.
  - destruct i as [|i]; [lia|]. intros Hi. rewrite append_cons. cbn [slice].
    rewrite IH by lia. reflexivity.
Qed.

(** Every ampersand of escaped text begins one of the five entities. *)
Lemma escapeHtml_ampersand (text : string) (i : nat) :
  chars (escapeHtml text) !! i = Some (ch "&") ->
  exists e, e ∈ (snd <$> escape_map) /\
            startsWith (slice (escapeHtml text) i) e = true.
Proof.
  revert i. induction text as [|x text IH]; intros i; [destruct i; discriminate|].
  cbn [escapeHtml]. pose proof (escape_lookup_spec escape_map x) as H.
  destruct (escape_lookup escape_map x) as [e|].
  - assert (Hin : e ∈ (snd <$> escape_map)).
    { apply list_elem_of_In, in_map_iff. exists (x, e). auto. }
    assert (Hinner : forall j, chars e !! S j <> Some (ch "&")).
    { cbn in H.
      repeat (destruct H as [[= <- <-]|H];
              [intros j; do 6 (try (destruct j as [|j])); cbv; discriminate|]).
      destruct H. }
    rewrite chars_app. intros Hi.
    destruct (decide (i < length (chars e))) as [Hlt|Hge].
    + rewrite lookup_app_l in Hi by exact Hlt.
      destruct i as [|i]; [|destruct (Hinner i Hi)].
      exists e. split; [exact Hin|]. cbn [slice]. apply startsWith_app.
    + rewrite lookup_app_r in Hi by lia.
      rewrite slice_app by lia. apply IH, Hi.
  - unfold escape_map in H. apply Forall_cons in H as [Hamp _]. cbn [fst] in Hamp.
    destruct i as [|i]; [|exact (IH i)].
    intros Hx. exfalso. apply Hamp. simpl in Hx. injection Hx as Hx. rewrite Hx. reflexivity.
Qed.

Lemma includes_app_r (a s p : string) :
  includes s p = true -> includes (a +:+ s) p = true.
Proof.
  intros (a' & b' & ->)%includes_split. rewrite <- append_assoc. apply includes_app.
Qed.

Lemma includes_app_l (s b p : string) :
  includes s p = true -> includes (s +:+ b) p = true.
Proof.
  intros (a' & b' & ->)%includes_split. rewrite !append_assoc. apply includes_app.
Qed.

(** Escaping maps an occurrence of a text to an occurrence of its
    escaped form. *)
Lemma escapeHtml_includes (s p : string) :
  includes s p = true -> includes (escapeHtml s) (escapeHtml p) = true.
Proof.
  intros (a & b & ->)%includes_split. rewrite !escapeHtml_app. apply includes_app.
Qed.

Lemma escapeHtml_no_lt (text : string) :
  Forall (fun c => c <> ch "<") (chars (escapeHtml text)).
Proof.
  eapply Forall_impl; [apply escapeHtml_no_markup|]. intros c H. apply H.
Qed.

(** ** renderBreadcrumbs *)

Ltac push_literals :=
  unfold dq, nl; rewrite ?append_cons;
  repeat change (EmptyString +:+ ?r) with r.

(** No [li] opens a script element, whatever the label and the url. *)
Lemma crumb_current_no_script (l : string) :
  includes (crumb_current (escapeHtml l)) "<script" = false.
Proof.
  unfold crumb_current. push_literals. simpl.
  rewrite (includes_skip _ _ _ _ (escapeHtml_no_lt l)). reflexivity.
Qed.

Lemma crumb_link_no_script (u l : string) :
  includes (crumb_link (escapeHtml u) (escapeHtml l)) "<script" = false.
Proof.
  unfold crumb_link. push_literals. simpl.
  rewrite (includes_skip _ _ _ _ (escapeHtml_no_lt u)). simpl.
  rewrite (includes_skip _ _ _ _ (escapeHtml_no_lt l)). reflexivity.
Qed.

Lemma crumb_current_includes (x p : string) :
  includes x p = true -> includes (crumb_current x) p = true.
Proof.
  intros H. unfold crumb_current.
  do 5 apply includes_app_r. apply includes_app_l, H.
Qed.

Lemma crumb_link_includes (u x p : string) :
  includes x p = true -> includes (crumb_link u x) p = true.
Proof.
  intros H. unfold crumb_link.
  do 10 apply includes_app_r. apply includes_app_l, H.
Qed.

Lemma render_item_typed (isLast : bool) (item : value) (l u : string) :
  get_field item "label" = Ok (VStr l) ->
  get_field item "url" = Ok (VStr u) ->
  render_item isLast item
  = Ok (if isLast then crumb_current (escapeHtml l)
        else crumb_link (escapeHtml u) (escapeHtml l)).
Proof.
  intros Hl Hu. unfold render_item, bind. rewrite Hl, Hu. destruct isLast; reflexivity.
Qed.

Lemma render_items_typed (st : State) (todo : list value) :
  forall (appended : list string) (index : nat),
    Forall (fun item => entry_typed item = true) todo ->
    exists htmls,
      render_items st appended index todo
      = Done (set_breadcrumbList st (Some (appended ++ htmls))) /\
      forall k item,
        todo !! k = Some item ->
        exists l u,
          get_field item "label" = Ok (VStr l) /\
          get_field item "url" = Ok (VStr u) /\
          htmls !! k
          = Some (if index + k =? length (breadcrumbs st) - 1
                  then crumb_current (escapeHtml l)
                  else crumb_link (escapeHtml u) (escapeHtml l)).
Proof.
  induction todo as [|item todo IH]; intros appended index Htyped.
  - exists []. rewrite app_nil_r. split; [reflexivity|]. intros k item' Hk. inversion Hk.
  - apply Forall_cons in Htyped as [Hitem Htyped].
    apply entry_typed_fields in Hitem as (l & u & Hl & Hu).
    destruct (IH (appended ++ [if index =? length (breadcrumbs st) - 1
                                then crumb_current (escapeHtml l)
                                else crumb_link (escapeHtml u) (escapeHtml l)])
                 (S index) Htyped) as (htmls & Hrun & Hhtmls).
    eexists (_ :: htmls). split.
    + cbn [render_items]. rewrite (render_item_typed _ _ l u Hl Hu), Hrun.
      rewrite <- app_assoc. reflexivity.
    + intros [|k] item' Hk.
      * injection Hk as <-. exists l, u. rewrite Nat.add_0_r. auto.
      * destruct (Hhtmls k item' Hk) as (l' & u' & Hl' & Hu' & Hk').
        exists l', u'. replace (index + S k) with (S index + k) by lia. auto.
Qed.

Lemma renderBreadcrumbs_typed (st : State) (old : list string) :
  breadcrumbList st = Some old ->
  Forall (fun item => entry_typed item = true) (breadcrumbs st) ->
  exists htmls,
    renderBreadcrumbs st = Done (set_breadcrumbList st (Some htmls)) /\
    forall k item,
      breadcrumbs st !! k = Some item ->
      exists l u,
        get_field item "label" = Ok (VStr l) /\
        get_field item "url" = Ok (VStr u) /\
        htmls !! k
        = Some (if k =? length (breadcrumbs st) - 1
                then crumb_current (escapeHtml l)
                else crumb_link (escapeHtml u) (escapeHtml l)).
Proof.
  intros Hlist Htyped. unfold renderBreadcrumbs. rewrite Hlist.
  destruct (length (breadcrumbs st) =? 0) eqn:Hlen.
  - exists []. split; [reflexivity|]. intros k item Hk.
    apply Nat.eqb_eq, nil_length_inv in Hlen. rewrite Hlen in Hk. inversion Hk.
  - apply (render_items_typed st (breadcrumbs st) [] 0 Htyped).
Qed.

(** Rendering a typed trail ends normally and leaves the trail alone. *)
Lemma renderBreadcrumbs_done (st : State) :
  Forall (fun item => entry_typed item = true) (breadcrumbs st) ->
  exists st', renderBreadcrumbs st = Done st' /\ breadcrumbs st' = breadcrumbs st.
Proof.
  intros Htyped. destruct (breadcrumbList st) as [old|] eqn:Hlist.
  - destruct (renderBreadcrumbs_typed st old Hlist Htyped) as (htmls & Hrun & _).
    eexists. split; [exact Hrun|reflexivity].
  - exists st. unfold renderBreadcrumbs. rewrite Hlist. auto.
Qed.

(** C6. Rendering escapes what it inserts. In every state with the list
    element present and a trail whose entries have a string label and a
    string url, [renderBreadcrumbs] ends normally and the [li] of each
    entry is the fixed template filled with [escapeHtml] of the label
    (and, for an ancestor, of the url); that markup nowhere opens a
    script element, and it contains the escaped form of a script tag
    whenever the label contains the tag. Escaped text contains none of
    the characters less-than, greater-than, double quote and apostrophe,
    and each of its ampersands begins one of the five entities. *)
Theorem renderBreadcrumbs_escapes (st : State) (old : list string) :
  breadcrumbList st = Some old ->
  Forall (fun item => entry_typed item = true) (breadcrumbs st) ->
  exists htmls,
    renderBreadcrumbs st = Done (set_breadcrumbList st (Some htmls)) /\
    (forall i item,
        breadcrumbs st !! i = Some item ->
        exists l u html,
          get_field item "label" = Ok (VStr l) /\
          get_field item "url" = Ok (VStr u) /\
          htmls !! i = Some html /\
          html = (if i =? length (breadcrumbs st) - 1
                  then crumb_current (escapeHtml l)
                  else crumb_link (escapeHtml u) (escapeHtml l)) /\
          includes html "<script" = false /\
          (includes l "<script>" = true ->
           includes html "&lt;script&gt;" = true)) /\
    (forall text,
        Forall (fun c => c <> ch "<" /\ c <> ch ">" /\ c <> ch dq /\ c <> ch "'")
               (chars (escapeHtml text)) /\
        forall i, chars (escapeHtml text) !! i = Some (ch "&") ->
                  exists e, e ∈ (snd <$> escape_map) /\
                            startsWith (slice (escapeHtml text) i) e = true).
Proof.
  intros Hlist Htyped.
  destruct (renderBreadcrumbs_typed st old Hlist Htyped) as (htmls & Hrun & Hhtmls).
  exists htmls. split; [exact Hrun|]. split.
  - intros i item Hi. destruct (Hhtmls i item Hi) as (l & u & Hl & Hu & Hhtml).
    exists l, u. eexists. repeat (split; [eassumption || reflexivity|]).
    destruct (i =? length (breadcrumbs st) - 1).
    + split; [apply crumb_current_no_script|].
      intros Hs. apply crumb_current_includes.
      apply (escapeHtml_includes l "<script>" Hs).
    + split; [apply crumb_link_no_script|].
      intros Hs. apply crumb_link_includes.
      apply (escapeHtml_includes l "<script>" Hs).
  - intros text. split; [apply escapeHtml_no_markup|apply escapeHtml_ampersand].
Qed.

(** ** updateBreadcrumb *)

Lemma saveBreadcrumbs_breadcrumbs (st : State) :
  breadcrumbs (saveBreadcrumbs st) = breadcrumbs st.
Proof. unfold saveBreadcrumbs. destruct (setItem _ _ _); reflexivity. Qed.

(** Where the resolved dashboard's url comes from, it has a leading
    slash as soon as the trail's and the hierarchy's have. *)
Lemma resolves_normalized (st : State) (d : value) :
  Forall (fun item => entry_normalized item = true) (breadcrumbs st) ->
  Forall (fun e => url_normalized (fst e) = true) (PAGE_HIERARCHY st) ->
  resolves st d -> entry_normalized d = true.
Proof.
  intros Htrail Hhier [i item Hi _ _|i url info _ Hi _ _ _|i a l _ _ _ _ _ _|_ _ _].
  - rewrite Forall_forall in Htrail. eapply Htrail, list_elem_of_lookup_2, Hi.
  - rewrite Forall_forall in Hhier.
    apply (Hhier (url, info)). eapply list_elem_of_lookup_2, Hi.
  - apply normalizeUrl_leading_slash.
  - unfold role_default. destruct (isAdmin (doc st)); reflexivity.
Qed.

Lemma buildBreadcrumbPath_normalized (st : State) (lbl url : string) :
  Forall (fun item => entry_typed item = true) (breadcrumbs st) ->
  Forall (fun item => entry_normalized item = true) (breadcrumbs st) ->
  Forall (fun e => url_normalized (fst e) = true) (PAGE_HIERARCHY st) ->
  url_normalized url = true ->
  exists t,
    buildBreadcrumbPath st lbl url = Ok t /\
    last t = Some (mk_entry lbl url) /\
    Forall (fun item => entry_typed item = true) t /\
    Forall (fun item => entry_normalized item = true) t.
Proof.
  intros Htyped Htrail Hhier Hurl.
  destruct (buildBreadcrumbPath_total st lbl url Htyped) as [t Ht].
  assert (Hcur : entry_normalized (mk_entry lbl url) = true) by exact Hurl.
  exists t. split; [exact Ht|].
  apply buildBreadcrumbPath_shape in Ht as [->|(d & du & Hd & _ & _ & ->)].
  - repeat split; repeat constructor; auto.
  - pose proof (getDashboardPage_sound st d Hd) as Hres.
    repeat split; repeat constructor; auto.
    + eapply resolves_typed; eauto.
    + eapply resolves_normalized; eauto.
Qed.

(** Saving and rendering a typed trail end normally and keep it. *)
Lemma save_render_done (st : State) :
  Forall (fun item => entry_typed item = true) (breadcrumbs st) ->
  exists st',
    renderBreadcrumbs (saveBreadcrumbs st) = Done st' /\
    breadcrumbs st' = breadcrumbs st.
Proof.
  intros Htyped.
  destruct (renderBreadcrumbs_done (saveBreadcrumbs st)) as (st' & Hrun & Hsame).
  { rewrite saveBreadcrumbs_breadcrumbs. exact Htyped. }
  exists st'. rewrite saveBreadcrumbs_breadcrumbs in Hsame. auto.
Qed.

(** C8 (as amended). [updateBreadcrumb] stores the url it is given as it
    is given. When that url has a leading slash, and the urls of the
    entries already in the trail and the keys of the hierarchy have one
    (the trail's entries having string labels and urls), the call ends
    normally and every entry of the rebuilt trail has a url with a
    leading slash. *)
Theorem updateBreadcrumb_normalized (st : State) (lbl url : string) :
  Forall (fun item => entry_typed item = true) (breadcrumbs st) ->
  Forall (fun item => entry_normalized item = true) (breadcrumbs st) ->
  Forall (fun e => url_normalized (fst e) = true) (PAGE_HIERARCHY st) ->
  url_normalized url = true ->
  exists st',
    updateBreadcrumb st lbl url = Done st' /\
    last (breadcrumbs st') = Some (mk_entry lbl url) /\
    Forall (fun item => entry_normalized item = true) (breadcrumbs st').
Proof.
  intros Htyped Htrail Hhier Hurl.
  destruct (buildBreadcrumbPath_normalized st lbl url Htyped Htrail Hhier Hurl)
    as (t & Ht & Hlast & Htt & Htn).
  unfold updateBreadcrumb. rewrite Ht.
  destruct (save_render_done (set_breadcrumbs st t) Htt) as (st' & Hrun & Hsame).
  exists st'. cbn [breadcrumbs set_breadcrumbs] in Hsame. rewrite Hsame. auto.
Qed.

(** ** The hierarchy's keys and the page-ready handler *)

Lemma hierarchy_set_keys (P : string -> Prop) (h : hierarchy) (k : string)
      (info : HierarchyInfo) :
  Forall (fun e => P (fst e)) h -> P k ->
  Forall (fun e => P (fst e)) (hierarchy_set h k info).
Proof.
  intros Hh Hk. induction Hh as [|[k' old] h Hk' Hrest IH]; cbn [hierarchy_set].
  - repeat constructor. exact Hk.
  - destruct (String.eqb k' k); constructor; auto.
Qed.

(** Every key [initializePageHierarchy] writes has a leading slash. *)
Lemma initializePageHierarchy_keys (st : State) :
  Forall (fun e => url_normalized (fst e) = true) (PAGE_HIERARCHY st) ->
  Forall (fun e => url_normalized (fst e) = true)
         (PAGE_HIERARCHY (initializePageHierarchy st)).
Proof.
  intros Hh. unfold initializePageHierarchy.
  set (links := List.filter _ _). clearbody links.
  assert (Hfold : Forall (fun e => url_normalized (fst e) = true)
                         (fold_left add_link links (PAGE_HIERARCHY st))).
  { revert Hh. generalize (PAGE_HIERARCHY st).
    induction links as [|a links IH]; intros h Hh; [exact Hh|].
    cbn [fold_left]. apply IH. unfold add_link.
    apply (hierarchy_set_keys (fun k => url_normalized k = true)); [exact Hh|].
    apply normalizeUrl_leading_slash. }
  destruct (hierarchy_get _ _); [exact Hfold|]. cbn [PAGE_HIERARCHY set_hierarchy].
  apply (hierarchy_set_keys (fun k => url_normalized k = true)); [exact Hfold|].
  apply normalizeUrl_leading_slash.
Qed.

(** On a page load that finds no stored trail, every url of the trail
    built has a leading slash: the handler normalises the page url before
    it calls [updateBreadcrumb]. *)
Lemma onDOMContentLoaded_normalized (st : State) :
  breadcrumbs st = [] ->
  PAGE_HIERARCHY st = [] ->
  accessible (storage st) = true ->
  items (storage st) !! BREADCRUMB_STORAGE_KEY = None ->
  exists st',
    onDOMContentLoaded st = Done st' /\
    Forall (fun item => entry_normalized item = true) (breadcrumbs st').
Proof.
  intros Hempty Hh Hacc Hslot.
  pose proof (initializePageHierarchy_keys st) as Hkeys.
  rewrite Hh in Hkeys. specialize (Hkeys (List.Forall_nil _)).
  unfold onDOMContentLoaded.
  set (st0 := initializePageHierarchy st) in *.
  assert (Hst0 : breadcrumbs st0 = [] /\ storage st0 = storage st).
  { unfold st0, initializePageHierarchy.
    destruct (hierarchy_get _ _); cbn; auto. }
  destruct Hst0 as [Hb0 Hs0].
  assert (Hload : loadBreadcrumbs st0 = st0).
  { unfold loadBreadcrumbs, getItem, bind. rewrite Hs0, Hacc, Hslot. reflexivity. }
  rewrite Hload.
  destruct (buildBreadcrumbPath_normalized st0
              (or_else (meta_page_title (doc st0))
                       (or_else (data_page_title (doc st0)) (title (doc st0))))
              (normalizeUrl
                 (or_else (meta_page_url (doc st0))
                          (or_else (data_page_url (doc st0))
                                   (location_pathname (doc st0))))))
    as (t & Ht & _ & Htt & Htn);
    try (rewrite Hb0; constructor); auto using normalizeUrl_leading_slash.
  unfold updateBreadcrumb. rewrite Ht.
  destruct (save_render_done (set_breadcrumbs st0 t) Htt) as (st' & Hrun & Hsame).
  exists st'. cbn [breadcrumbs set_breadcrumbs] in Hsame. rewrite Hsame. auto.
Qed.

(** ** Further properties of the URL normaliser and the dashboard rules *)

Lemma length_chars (s : string) : String.length s = length (chars s).
Proof. induction s as [|c s IH]; [reflexivity|]. cbn. rewrite IH. reflexivity. Qed.

Lemma replace_prefix (s pat rep : string) :
  startsWith s pat = true -> replace s pat rep = rep +:+ slice s (String.length pat).
Proof. intros H. destruct s; cbn [replace]; rewrite H; reflexivity. Qed.

Lemma includes_suffix (s a p : string) :
  includes s (a +:+ p) = true -> includes s p = true.
Proof.
  intros (x & y & ->)%includes_split.
  rewrite (append_assoc a p y), <- (append_assoc x a (p +:+ y)). apply includes_app.
Qed.

Lemma toLowerCase_app (a b : string) :
  toLowerCase (a +:+ b) = toLowerCase a +:+ toLowerCase b.
Proof.
  induction a as [|c a IH]; [reflexivity|].
  rewrite append_cons. cbn [toLowerCase]. rewrite IH. reflexivity.
Qed.

Lemma toLowerCase_includes (s p : string) :
  includes s p = true -> includes (toLowerCase s) (toLowerCase p) = true.
Proof.
  intros (a & b & ->)%includes_split. rewrite !toLowerCase_app. apply includes_app.
Qed.

(** X1. A url that does not contain the origin is kept as it is when it
    starts with a slash and gets one slash put in front when it does not;
    either way the result starts with a slash. *)
Theorem normalizeUrl_relative (url : string) :
  includes url origin = false ->
  normalizeUrl url = (if startsWith url "/" then url else "/" +:+ url) /\
  url_normalized (normalizeUrl url) = true.
Proof.
  intros H. split; [|apply normalizeUrl_leading_slash].
  unfold normalizeUrl. rewrite (replace_absent _ _ _ H). reflexivity.
Qed.

(** X2. The absolute form of a path normalises to the path: for every
    path with a leading slash, [normalizeUrl] of the origin followed by the
    path is the path. *)
Theorem normalizeUrl_absolute (path : string) :
  url_normalized path = true -> normalizeUrl (origin +:+ path) = path.
Proof.
  intros H. unfold normalizeUrl.
  rewrite (replace_prefix _ _ _ (startsWith_app origin path)).
  change (EmptyString +:+ ?r) with r.
  rewrite slice_app by (rewrite length_chars; lia).
  rewrite length_chars, Nat.sub_diag. cbn [slice].
  unfold url_normalized in H. rewrite H. reflexivity.
Qed.

(** X3. Of the three URL patterns of [isDashboardPage] only the first
    matters: on strings the predicate is true exactly when the url contains
    dashboard, or the lower-cased label does, or the hierarchy gives the
    url level 0. *)
Theorem isDashboardPage_marker (h : hierarchy) (url lbl : string) :
  isDashboardPage h (VStr url) (VStr lbl) =
  Ok (includes url "dashboard"
      || includes (toLowerCase lbl) "dashboard"
      || match hierarchy_get h url with
         | Some info => level info =? 0
         | None => false
         end).
Proof.
  rewrite isDashboardPage_strings. f_equal. f_equal. f_equal.
  destruct (includes url "dashboard") eqn:E; [reflexivity|].
  destruct (includes url "admin_dashboard") eqn:Ea.
  { apply (includes_suffix url "admin_" "dashboard") in Ea. congruence. }
  destruct (includes url "employee_dashboard") eqn:Ee; [|reflexivity].
  apply (includes_suffix url "employee_" "dashboard") in Ee. congruence.
Qed.

Lemma resolves_is_dashboard (st : State) (d : value) :
  resolves st d -> item_is_dashboard (PAGE_HIERARCHY st) d = Ok true.
Proof.
  intros [i item _ Hd _|i url info _ _ _ Hl _|i a l _ _ _ _ Hl _|_ _ _].
  - exact Hd.
  - unfold item_is_dashboard, bind. cbn [get_field mk_entry own_property].
    cbn. rewrite isDashboardPage_strings, Hl, orb_true_r. reflexivity.
  - unfold item_is_dashboard, bind. cbn.
    rewrite isDashboardPage_strings.
    assert (Hlow : includes (toLowerCase l) "dashboard" = true).
    { unfold role_needle in Hl. destruct (isAdmin (doc st)).
      - apply toLowerCase_includes in Hl.
        apply (includes_suffix _ "admin " "dashboard"), Hl.
      - apply toLowerCase_includes in Hl.
        apply (includes_suffix _ "employee " "dashboard"), Hl. }
    rewrite Hlow, orb_true_r. reflexivity.
  - unfold role_default. destruct (isAdmin (doc st)); reflexivity.
Qed.

(** X4. Whatever [getDashboardPage] returns is itself a dashboard page:
    [isDashboardPage] accepts its url and label. *)
Theorem getDashboardPage_is_dashboard (st : State) (d : value) :
  getDashboardPage st = Ok d ->
  exists url lbl,
    get_field d "url" = Ok url /\ get_field d "label" = Ok lbl /\
    isDashboardPage (PAGE_HIERARCHY st) url lbl = Ok true.
Proof.
  intros Hd%getDashboardPage_sound%resolves_is_dashboard.
  unfold item_is_dashboard, bind in Hd.
  destruct (get_field d "url") as [url|]; [|discriminate].
  destruct (get_field d "label") as [lbl|]; [|discriminate].
  eauto.
Qed.


(** ** Further properties of persistence *)

(** X6. Loading twice is loading once. *)
Theorem loadBreadcrumbs_idempotent (st : State) :
  loadBreadcrumbs (loadBreadcrumbs st) = loadBreadcrumbs st.
Proof.
  destruct (loadBreadcrumbs_frame st) as (_ & Hs & _).
  unfold loadBreadcrumbs at 1. rewrite Hs.
  unfold loadBreadcrumbs, bind.
  destruct (getItem (storage st) BREADCRUMB_STORAGE_KEY) as [[text|]|]; try reflexivity.
  destruct (truthy (VStr text)); [|reflexivity].
  destruct (JSON_parse text) as [v|]; [|reflexivity].
  destruct (array_filter valid_item v); reflexivity.
Qed.

(** X7. What a save followed by a load keeps. When the storage takes the
    write and the host reads back the JSON it wrote, loading after saving
    a trail [t] yields the entries of [t] that are objects with a truthy
    label and a truthy url, in order: an entry with an empty label or an
    empty url, which [updateBreadcrumb] stores without complaint, is gone
    after the next load. *)
Theorem save_load_keeps_valid (st : State) (t inMemory : list value) :
  accessible (storage st) = true ->
  accepts (storage st) BREADCRUMB_STORAGE_KEY (JSON_stringify (VArr t)) = true ->
  JSON_parse (JSON_stringify (VArr t)) = Ok (VArr t) ->
  JSON_stringify (VArr t) <> EmptyString ->
  breadcrumbs
    (loadBreadcrumbs
       (set_breadcrumbs (saveBreadcrumbs (set_breadcrumbs st t)) inMemory))
  = List.filter valid_item t.
Proof.
  intros Hacc Hquota Hjson Hne.
  unfold saveBreadcrumbs, setItem. simpl. rewrite Hacc, Hquota.
  unfold loadBreadcrumbs, getItem, bind. simpl.
  rewrite lookup_insert_eq.
  apply String.eqb_neq in Hne. unfold truthy. rewrite Hne. simpl.
  rewrite Hjson. reflexivity.
Qed.

(** X8. [saveBreadcrumbs] fails soft and touches one slot only: it never
    changes the trail, the hierarchy, the document or the rendered list;
    every other key of the storage keeps its item; and the slot of the
    trail either holds the JSON text of the trail afterwards or, when the
    storage refuses the write, the whole storage is as it was. *)
Theorem saveBreadcrumbs_frame (st : State) :
  let st' := saveBreadcrumbs st in
  breadcrumbs st' = breadcrumbs st /\
  PAGE_HIERARCHY st' = PAGE_HIERARCHY st /\
  doc st' = doc st /\
  breadcrumbList st' = breadcrumbList st /\
  (forall k, k <> BREADCRUMB_STORAGE_KEY ->
             items (storage st') !! k = items (storage st) !! k) /\
  (if accessible (storage st)
      && accepts (storage st) BREADCRUMB_STORAGE_KEY
                 (JSON_stringify (VArr (breadcrumbs st)))
   then items (storage st') !! BREADCRUMB_STORAGE_KEY
        = Some (JSON_stringify (VArr (breadcrumbs st)))
   else storage st' = storage st).
Proof.
  cbv zeta. unfold saveBreadcrumbs, setItem.
  destruct (accessible (storage st)); [|repeat split; reflexivity].
  destruct (accepts _ _ _); [|repeat split; reflexivity].
  cbn. repeat split; try reflexivity.
  - intros k Hk. apply lookup_insert_ne. congruence.
  - apply lookup_insert_eq.
Qed.

(** ** Further properties of rendering *)

Lemma render_items_prior (st : State) (prior : option (list string))
      (todo : list value) :
  forall appended index,
    render_items (set_breadcrumbList st prior) appended index todo
    = render_items st appended index todo.
Proof.
  induction todo as [|item todo IH]; intros appended index; [reflexivity|].
  cbn [render_items breadcrumbs set_breadcrumbList].
  destruct (render_item _ item); [apply IH|reflexivity].
Qed.

Lemma render_items_state (st : State) (todo : list value) :
  forall appended index,
    exists htmls,
      length htmls <= length todo /\
      match render_items st appended index todo with
      | Done st' =>
          st' = set_breadcrumbList st (Some (appended ++ htmls)) /\
          length htmls = length todo
      | Raised _ st' => st' = set_breadcrumbList st (Some (appended ++ htmls))
      end.
Proof.
  induction todo as [|item todo IH]; intros appended index.
  - exists []. rewrite app_nil_r. cbn. auto.
  - cbn [render_items]. destruct (render_item _ item) as [html|e].
    + destruct (IH (appended ++ [html]) (S index)) as (htmls & Hlen & H).
      exists (html :: htmls). split; [cbn; lia|].
      destruct (render_items st (appended ++ [html]) (S index) todo);
        rewrite <- app_assoc in H; cbn in H |- *.
      * destruct H as [-> Hl]. split; [reflexivity|lia].
      * exact H.
    + exists []. rewrite app_nil_r. cbn. split; [lia|reflexivity].
Qed.

(** Rendering changes nothing but the rendered list. *)
Lemma renderBreadcrumbs_state (st : State) :
  exists shown,
    match renderBreadcrumbs st with
    | Done st' | Raised _ st' => st' = set_breadcrumbList st shown
    end /\
    (breadcrumbList st = None -> shown = None) /\
    (breadcrumbList st <> None -> shown <> None).
Proof.
  unfold renderBreadcrumbs. destruct (breadcrumbList st) as [old|] eqn:Hold.
  - destruct (length (breadcrumbs st) =? 0).
    + exists (Some []). repeat split; congruence.
    + destruct (render_items_state st (breadcrumbs st) [] 0) as (htmls & _ & H).
      exists (Some htmls). split; [|split; congruence].
      destruct (render_items st [] 0 (breadcrumbs st)); [apply H|exact H].
  - exists None. split; [|split; congruence].
    destruct st; cbn in *. subst. reflexivity.
Qed.

(** X9. Rendering repaints from scratch: what was rendered before has no
    influence on the outcome, and rendering again right after a render
    (one that ended normally or one that threw) gives the same outcome and
    the same page. *)
Theorem renderBreadcrumbs_repaint (st : State) :
  (forall old old',
      renderBreadcrumbs (set_breadcrumbList st (Some old))
      = renderBreadcrumbs (set_breadcrumbList st (Some old'))) /\
  match renderBreadcrumbs st with
  | Done st' => renderBreadcrumbs st' = Done st'
  | Raised e st' => renderBreadcrumbs st' = Raised e st'
  end.
Proof.
  assert (Hprior : forall old old',
             renderBreadcrumbs (set_breadcrumbList st (Some old))
             = renderBreadcrumbs (set_breadcrumbList st (Some old'))).
  { intros old old'. unfold renderBreadcrumbs.
    cbn [breadcrumbList breadcrumbs set_breadcrumbList].
    destruct (length (breadcrumbs st) =? 0); [reflexivity|].
    rewrite !render_items_prior. reflexivity. }
  split; [exact Hprior|].
  destruct (renderBreadcrumbs_state st) as (shown & Hst & Hnone & Hsome).
  destruct (breadcrumbList st) as [old|] eqn:Hold.
  - destruct shown as [new|]; [|exfalso; apply Hsome; congruence].
    assert (Heq : st = set_breadcrumbList st (Some old))
      by (destruct st; cbn in *; subst; reflexivity).
    destruct (renderBreadcrumbs st) as [st'|e st'] eqn:Hrun; subst st';
      rewrite (Hprior new old), <- Heq; exact Hrun.
  - unfold renderBreadcrumbs. rewrite Hold.
    unfold renderBreadcrumbs. rewrite Hold. reflexivity.
Qed.

Lemma crumb_current_no_link (l : string) :
  includes (crumb_current (escapeHtml l)) "<a href=" = false.
Proof.
  unfold crumb_current. push_literals. simpl.
  rewrite (includes_skip _ _ _ _ (escapeHtml_no_lt l)). reflexivity.
Qed.

Lemma crumb_link_has_link (u l : string) :
  includes (crumb_link u l) "<a href=" = true.
Proof.
  unfold crumb_link. apply includes_app_r, includes_app_l. reflexivity.
Qed.

(** X10. Only the last entry is not clickable. For a trail of entries
    with string labels and urls, rendering produces one [li] per entry, in
    order, and the [li] holds a link exactly when its entry is not the
    last one. *)
Theorem renderBreadcrumbs_links (st : State) (old : list string) :
  breadcrumbList st = Some old ->
  Forall (fun item => entry_typed item = true) (breadcrumbs st) ->
  exists htmls,
    renderBreadcrumbs st = Done (set_breadcrumbList st (Some htmls)) /\
    length htmls = length (breadcrumbs st) /\
    forall i html,
      htmls !! i = Some html ->
      includes html "<a href=" = negb (i =? length (breadcrumbs st) - 1).
Proof.
  intros Hold Htyped.
  destruct (renderBreadcrumbs_typed st old Hold Htyped) as (htmls & Hrun & Hhtmls).
  exists htmls. split; [exact Hrun|].
  assert (Hlen : length htmls = length (breadcrumbs st)).
  { unfold renderBreadcrumbs in Hrun. rewrite Hold in Hrun.
    destruct (length (breadcrumbs st) =? 0) eqn:Hz.
    - injection Hrun as Hrun. apply Nat.eqb_eq in Hz. rewrite Hz.
      assert (Some htmls = Some []) as [= ->]; [|reflexivity].
      change (breadcrumbList (set_breadcrumbList st (Some htmls))
              = breadcrumbList (set_breadcrumbList st (Some []))).
      rewrite Hrun. reflexivity.
    - destruct (render_items_state st (breadcrumbs st) [] 0) as (hs & _ & H).
      rewrite Hrun in H. destruct H as [H Hl]. rewrite <- Hl.
      assert (Some htmls = Some hs) as [= ->]; [|reflexivity].
      change (breadcrumbList (set_breadcrumbList st (Some htmls))
              = breadcrumbList (set_breadcrumbList st (Some ([] ++ hs)))).
      rewrite H. reflexivity. }
  split; [exact Hlen|].
  intros i html Hi.
  assert (Hlt : i < length (breadcrumbs st)).
  { rewrite <- Hlen. eapply lookup_lt_Some, Hi. }
  destruct (lookup_lt_is_Some_2 _ _ Hlt) as [item Hitem].
  destruct (Hhtmls i item Hitem) as (l & u & _ & _ & Hhtml).
  rewrite Hi in Hhtml. injection Hhtml as ->.
  destruct (i =? length (breadcrumbs st) - 1); cbn [negb].
  - apply crumb_current_no_link.
  - apply crumb_link_has_link.
Qed.

(** ** Further properties of the control surface *)

(** X11. [clearBreadcrumbs] ends normally exactly when the storage can be
    used. Then the trail is empty, the slot of the trail is gone and every
    other item kept, the rendered list (if the page has one) is empty, and
    a load right after changes nothing. When the storage cannot be used the
    [SecurityError] of [removeItem] reaches the caller, with the trail
    already emptied and the rendered list not repainted. *)
Theorem clearBreadcrumbs_outcome (st : State) :
  match clearBreadcrumbs st with
  | Done st' =>
      accessible (storage st) = true /\
      breadcrumbs st' = [] /\
      items (storage st') = delete BREADCRUMB_STORAGE_KEY (items (storage st)) /\
      breadcrumbList st' = (match breadcrumbList st with
                            | Some _ => Some []
                            | None => None
                            end) /\
      loadBreadcrumbs st' = st'
  | Raised e st' =>
      accessible (storage st) = false /\ e = SecurityError /\
      st' = set_breadcrumbs st []
  end.
Proof.
  unfold clearBreadcrumbs, removeItem. cbn [storage set_breadcrumbs].
  destruct (accessible (storage st)) eqn:Hacc; [|auto].
  unfold renderBreadcrumbs. cbn [breadcrumbList breadcrumbs set_storage set_breadcrumbs].
  destruct (breadcrumbList st) eqn:Hlist; cbn -[loadBreadcrumbs];
    do 4 (split; [solve [reflexivity | assumption]|]);
    unfold loadBreadcrumbs, getItem, bind;
    cbn [storage set_breadcrumbList set_storage set_breadcrumbs accessible items];
    rewrite lookup_delete_eq; reflexivity.
Qed.

(** X12. A rebuild persists what it built. When [updateBreadcrumb] ends
    normally the trail in memory is the one [buildBreadcrumbPath] computed,
    the hierarchy and the document are untouched, and the storage either
    holds the JSON text of exactly that trail under the key, or, when it
    refused the write, is as it was. *)
Theorem updateBreadcrumb_persists (st st' : State) (lbl url : string) :
  updateBreadcrumb st lbl url = Done st' ->
  buildBreadcrumbPath st lbl url = Ok (breadcrumbs st') /\
  PAGE_HIERARCHY st' = PAGE_HIERARCHY st /\
  doc st' = doc st /\
  (if accessible (storage st)
      && accepts (storage st) BREADCRUMB_STORAGE_KEY
                 (JSON_stringify (VArr (breadcrumbs st')))
   then items (storage st') !! BREADCRUMB_STORAGE_KEY
        = Some (JSON_stringify (VArr (breadcrumbs st')))
   else storage st' = storage st).
Proof.
  unfold updateBreadcrumb.
  destruct (buildBreadcrumbPath st lbl url) as [t|]; [|discriminate].
  intros Hrun.
  destruct (renderBreadcrumbs_state (saveBreadcrumbs (set_breadcrumbs st t)))
    as (shown & Hst & _).
  rewrite Hrun in Hst. subst st'.
  cbn [breadcrumbs PAGE_HIERARCHY doc storage set_breadcrumbList].
  destruct (saveBreadcrumbs_breadcrumbs (set_breadcrumbs st t)).
  unfold saveBreadcrumbs, setItem. cbn [storage breadcrumbs set_breadcrumbs].
  destruct (accessible (storage st)); [|repeat split; reflexivity].
  destruct (accepts _ _ _) eqn:Hq; cbn; rewrite ?Hq; cbn.
  - repeat split; try reflexivity. apply lookup_insert_eq.
  - repeat split; reflexivity.
Qed.

(** ** Further properties of escapeHtml *)

Lemma escapeHtml_cons (x : Ascii.ascii) (r : string) :
  escapeHtml (String x r)
  = match escape_lookup escape_map x with
    | Some e => e
    | None => String x EmptyString
    end +:+ escapeHtml r.
Proof. cbn [escapeHtml]. destruct (escape_lookup escape_map x); reflexivity. Qed.

Ltac head_chars H :=
  rewrite ?append_cons in H; repeat change (EmptyString +:+ ?r) with r in H.

(** Two escaped characters followed by anything: equal texts have equal
    heads and equal rests. *)
Lemma escape_head_inj (x y : Ascii.ascii) (r r' : string) :
  match escape_lookup escape_map x with
  | Some e => e
  | None => String x EmptyString
  end +:+ r
  = match escape_lookup escape_map y with
    | Some e => e
    | None => String y EmptyString
    end +:+ r' ->
  x = y /\ r = r'.
Proof.
  pose proof (escape_lookup_spec escape_map x) as Hx.
  pose proof (escape_lookup_spec escape_map y) as Hy.
  destruct (escape_lookup escape_map x) as [ex|], (escape_lookup escape_map y) as [ey|].
  - cbn in Hx, Hy.
    repeat (destruct Hx as [[= <- <-]|Hx]);
      repeat (destruct Hy as [[= <- <-]|Hy]);
      try contradiction;
      intros H; head_chars H; try discriminate H;
      injection H as ->; split; reflexivity.
  - unfold escape_map in Hy. apply Forall_cons in Hy as [Hamp _]. cbn [fst] in Hamp.
    cbn in Hx.
    repeat (destruct Hx as [[= <- <-]|Hx]); try contradiction;
      intros H; head_chars H; injection H as Hc _; exfalso; apply Hamp;
      rewrite <- Hc; reflexivity.
  - unfold escape_map in Hx. apply Forall_cons in Hx as [Hamp _]. cbn [fst] in Hamp.
    cbn in Hy.
    repeat (destruct Hy as [[= <- <-]|Hy]); try contradiction;
      intros H; head_chars H; injection H as Hc _; exfalso; apply Hamp;
      rewrite Hc; reflexivity.
  - intros H. head_chars H. injection H as -> ->. split; reflexivity.
Qed.

Lemma escapeHtml_cons_nonempty (x : Ascii.ascii) (r : string) :
  escapeHtml (String x r) <> EmptyString.
Proof.
  rewrite escapeHtml_cons.
  pose proof (escape_lookup_spec escape_map x) as Hx.
  destruct (escape_lookup escape_map x) as [e|]; [|discriminate].
  cbn in Hx.
  repeat (destruct Hx as [[= <- <-]|Hx]); try contradiction;
    intros H; head_chars H; discriminate H.
Qed.

(** X13. Escaping loses nothing: two texts with the same escaped form are
    the same text. *)
Theorem escapeHtml_injective (a b : string) :
  escapeHtml a = escapeHtml b -> a = b.
Proof.
  revert b. induction a as [|x a IH]; intros [|y b] H.
  - reflexivity.
  - symmetry in H. destruct (escapeHtml_cons_nonempty y b H).
  - destruct (escapeHtml_cons_nonempty x a H).
  - rewrite !escapeHtml_cons in H. apply escape_head_inj in H as [-> H].
    f_equal. apply IH, H.
Qed.

Lemma escapeHtml_length (s : string) :
  String.length s <= String.length (escapeHtml s).
Proof.
  induction s as [|x s IH]; [reflexivity|].
  rewrite escapeHtml_cons, !length_chars, chars_app, length_app, <- !length_chars.
  cbn [String.length].
  pose proof (escape_lookup_spec escape_map x) as Hx.
  destruct (escape_lookup escape_map x) as [e|]; [|cbn; lia].
  cbn in Hx. repeat (destruct Hx as [[= <- <-]|Hx]); try contradiction; cbn; lia.
Qed.

(** X14. Escaping leaves a text unchanged exactly when the text has none
    of the five characters. *)
Theorem escapeHtml_unchanged (s : string) :
  escapeHtml s = s <->
  Forall (fun c => escape_lookup escape_map c = None) (chars s).
Proof.
  induction s as [|x s IH]; [split; [constructor|reflexivity]|].
  rewrite escapeHtml_cons. cbn [chars]. rewrite Forall_cons.
  pose proof (escape_lookup_spec escape_map x) as Hx.
  pose proof (escapeHtml_length s) as Hlen.
  destruct (escape_lookup escape_map x) as [e|].
  - split; [|intros [[=] _]].
    cbn in Hx.
    repeat (destruct Hx as [[= <- <-]|Hx]); try contradiction;
      intros H; head_chars H; try discriminate H.
    injection H as H. rewrite <- H in Hlen at 1. cbn [String.length] in Hlen. lia.
  - change (String x EmptyString +:+ escapeHtml s) with (String x (escapeHtml s)).
    split.
    + intros [= H]. split; [reflexivity|]. apply IH, H.
    + intros [_ H]. f_equal. apply IH, H.
Qed.

(** ** Further properties of the hierarchy *)

Lemma hierarchy_get_set_eq (h : hierarchy) (k : string) (info : HierarchyInfo) :
  hierarchy_get (hierarchy_set h k info) k = Some info.
Proof.
  induction h as [|[k' old] h IH]; cbn [hierarchy_set hierarchy_get].
  - rewrite String.eqb_refl. reflexivity.
  - destruct (String.eqb k' k) eqn:E; cbn [hierarchy_get]; rewrite E; auto.
Qed.

Lemma hierarchy_get_set_ne (h : hierarchy) (k k' : string) (info : HierarchyInfo) :
  k <> k' -> hierarchy_get (hierarchy_set h k info) k' = hierarchy_get h k'.
Proof.
  intros Hne%String.eqb_neq.
  induction h as [|[k0 old] h IH]; cbn [hierarchy_set hierarchy_get].
  - rewrite Hne. reflexivity.
  - destruct (String.eqb k0 k) eqn:E; cbn [hierarchy_get].
    + apply String.eqb_eq in E as ->. rewrite Hne. reflexivity.
    + rewrite IH. reflexivity.
Qed.

Lemma hierarchy_set_Forall (Q : string -> HierarchyInfo -> Prop) (h : hierarchy)
      (k : string) (info : HierarchyInfo) :
  Forall (fun e => Q (fst e) (snd e)) h -> Q k info ->
  Forall (fun e => Q (fst e) (snd e)) (hierarchy_set h k info).
Proof.
  intros Hh Hk. induction Hh as [|[k' old] h Hk' Hrest IH]; cbn [hierarchy_set].
  - repeat constructor. exact Hk.
  - destruct (String.eqb k' k) eqn:E; constructor; auto.
    apply String.eqb_eq in E as ->. exact Hk.
Qed.

Lemma fold_add_link_Forall (Q : string -> HierarchyInfo -> Prop) (links : list anchor) :
  (forall h a, Forall (fun e => Q (fst e) (snd e)) h ->
               Forall (fun e => Q (fst e) (snd e)) (add_link h a)) ->
  forall h, Forall (fun e => Q (fst e) (snd e)) h ->
            Forall (fun e => Q (fst e) (snd e)) (fold_left add_link links h).
Proof.
  intros Hstep. induction links as [|a links IH]; intros h Hh; [exact Hh|].
  cbn [fold_left]. apply IH, Hstep, Hh.
Qed.

(** X15. What [initializePageHierarchy] keeps true of the hierarchy, and
    what it adds. If every entry has a key with a leading slash, a level of
    0 or 1, no parent, and, when its level is 0, the word dashboard in its
    key or in its lower-cased label, then so has every entry afterwards;
    the page's own path has an entry afterwards in any case; and nothing
    but the hierarchy changes. *)
Theorem initializePageHierarchy_invariant (st : State) :
  let good (e : string * HierarchyInfo) :=
    url_normalized (fst e) = true /\ level (snd e) <= 1 /\ parent (snd e) = None /\
    (level (snd e) = 0 ->
     includes (fst e) "dashboard" || includes (toLowerCase (label (snd e))) "dashboard"
     = true) in
  Forall good (PAGE_HIERARCHY st) ->
  Forall good (PAGE_HIERARCHY (initializePageHierarchy st)) /\
  is_Some (hierarchy_get (PAGE_HIERARCHY (initializePageHierarchy st))
                         (normalizeUrl (location_pathname (doc st)))) /\
  initializePageHierarchy st
  = set_hierarchy st (PAGE_HIERARCHY (initializePageHierarchy st)).
Proof.
  cbv zeta. intros Hgood. unfold initializePageHierarchy.
  set (links := List.filter _ _). clearbody links.
  set (Q := fun (k : string) (i : HierarchyInfo) =>
              url_normalized k = true /\ level i <= 1 /\ parent i = None /\
              (level i = 0 ->
               includes k "dashboard" || includes (toLowerCase (label i)) "dashboard"
               = true)).
  assert (Hfold : Forall (fun e => Q (fst e) (snd e))
                         (fold_left add_link links (PAGE_HIERARCHY st))).
  { apply (fold_add_link_Forall Q); [|exact Hgood].
    intros h a Hh. unfold add_link. apply (hierarchy_set_Forall Q); [exact Hh|].
    unfold Q. cbn [level parent label].
    split; [apply normalizeUrl_leading_slash|].
    destruct (includes (toLowerCase (default EmptyString (data_label a))) "dashboard")
      eqn:El; cbn [orb].
    { repeat split; auto. intros _. apply orb_true_r. }
    destruct (includes (normalizeUrl (href a)) "admin_dashboard") eqn:Ea; cbn [orb].
    { repeat split; auto. intros _.
      rewrite (includes_suffix _ "admin_" "dashboard" Ea). reflexivity. }
    destruct (includes (normalizeUrl (href a)) "employee_dashboard") eqn:Ee.
    { repeat split; auto. intros _.
      rewrite (includes_suffix _ "employee_" "dashboard" Ee). reflexivity. }
    repeat split; auto. discriminate. }
  destruct (hierarchy_get _ _) as [info|] eqn:Hget; cbn [PAGE_HIERARCHY set_hierarchy].
  - split; [exact Hfold|]. split; [rewrite Hget; eauto|reflexivity].
  - split; [|split; [rewrite hierarchy_get_set_eq; eauto|reflexivity]].
    apply (hierarchy_set_Forall Q); [exact Hfold|].
    unfold Q. cbn [level parent label].
    split; [apply normalizeUrl_leading_slash|].
    match goal with |- context [if ?b then 0 else 1] => destruct b eqn:Eb end.
    + repeat split; auto. intros _. rewrite orb_comm. exact Eb.
    + repeat split; auto. discriminate.
Qed.

Lemma fold_add_link_other (links : list anchor) (k : string) :
  Forall (fun b => normalizeUrl (href b) <> k) links ->
  forall h, hierarchy_get (fold_left add_link links h) k = hierarchy_get h k.
Proof.
  induction 1 as [|b links Hb _ IH]; intros h; [reflexivity|].
  cbn [fold_left]. rewrite IH. unfold add_link. apply hierarchy_get_set_ne, Hb.
Qed.

(** X16. The last declaration of a url wins. Of the links of the route
    catalog, the last one that resolves to a given normalised url decides
    the entry of that url: its label, and level 0 exactly when the
    lower-cased label contains dashboard or the url contains
    admin_dashboard or employee_dashboard. The fallback entry for the
    current page never overwrites it. *)
Theorem initializePageHierarchy_last_wins (st : State) (a : anchor)
        (earlier later : list anchor) :
  List.filter (fun a => in_url_resolver a && is_some (data_template_url a)
                        && is_some (data_label a))
              (anchors (doc st))
  = earlier ++ a :: later ->
  Forall (fun b => normalizeUrl (href b) <> normalizeUrl (href a)) later ->
  hierarchy_get (PAGE_HIERARCHY (initializePageHierarchy st)) (normalizeUrl (href a))
  = Some {| label := default EmptyString (data_label a);
            level := if includes (toLowerCase (default EmptyString (data_label a)))
                                 "dashboard"
                        || includes (normalizeUrl (href a)) "admin_dashboard"
                        || includes (normalizeUrl (href a)) "employee_dashboard"
                     then 0 else 1;
            parent := None |}.
Proof.
  intros Hlinks Hlater. unfold initializePageHierarchy. rewrite Hlinks.
  rewrite fold_left_app. cbn [fold_left].
  set (h0 := fold_left add_link earlier (PAGE_HIERARCHY st)).
  assert (Hget : hierarchy_get (fold_left add_link later (add_link h0 a))
                               (normalizeUrl (href a))
                 = Some {| label := default EmptyString (data_label a);
                           level := if includes (toLowerCase
                                                   (default EmptyString (data_label a)))
                                                "dashboard"
                                       || includes (normalizeUrl (href a)) "admin_dashboard"
                                       || includes (normalizeUrl (href a))
                                                   "employee_dashboard"
                                    then 0 else 1;
                           parent := None |}).
  { rewrite (fold_add_link_other later _ Hlater). unfold add_link.
    apply hierarchy_get_set_eq. }
  destruct (hierarchy_get _ (normalizeUrl (location_pathname (doc st)))) eqn:Hcur;
    cbn [PAGE_HIERARCHY set_hierarchy]; [exact Hget|].
  rewrite hierarchy_get_set_ne; [exact Hget|].
  intros Heq. rewrite Heq, Hget in Hcur. discriminate.
Qed.

(** X17. A page load that finds nothing stored. From the script's initial
    state, with a usable storage that holds no trail, the page-ready
    handler ends normally; the trail it leaves has at most two entries,
    ends with the page's label and the normalised page url, and every url
    in it has a leading slash. *)
Theorem onDOMContentLoaded_first_visit (st : State) :
  breadcrumbs st = [] ->
  PAGE_HIERARCHY st = [] ->
  accessible (storage st) = true ->
  items (storage st) !! BREADCRUMB_STORAGE_KEY = None ->
  exists st',
    onDOMContentLoaded st = Done st' /\
    length (breadcrumbs st') <= 2 /\
    last (breadcrumbs st')
    = Some (mk_entry
              (or_else (meta_page_title (doc st))
                       (or_else (data_page_title (doc st)) (title (doc st))))
              (normalizeUrl
                 (or_else (meta_page_url (doc st))
                          (or_else (data_page_url (doc st))
                                   (location_pathname (doc st)))))) /\
    Forall (fun item => entry_normalized item = true) (breadcrumbs st').
Proof.
  intros Hempty Hh Hacc Hslot.
  pose proof (initializePageHierarchy_keys st) as Hkeys.
  rewrite Hh in Hkeys. specialize (Hkeys (List.Forall_nil _)).
  unfold onDOMContentLoaded.
  set (st0 := initializePageHierarchy st) in *.
  assert (Hst0 : breadcrumbs st0 = [] /\ storage st0 = storage st /\ doc st0 = doc st).
  { unfold st0, initializePageHierarchy.
    destruct (hierarchy_get _ _); cbn; auto. }
  destruct Hst0 as (Hb0 & Hs0 & Hd0).
  assert (Hload : loadBreadcrumbs st0 = st0).
  { unfold loadBreadcrumbs, getItem, bind. rewrite Hs0, Hacc, Hslot. reflexivity. }
  rewrite Hload, Hd0.
  set (lbl := or_else (meta_page_title (doc st)) _).
  set (url := normalizeUrl _).
  assert (Hnil : forall P : value -> Prop, Forall P (breadcrumbs st0))
    by (intros P; rewrite Hb0; constructor).
  destruct (buildBreadcrumbPath_normalized st0 lbl url (Hnil _) (Hnil _) Hkeys
              (normalizeUrl_leading_slash _))
    as (t & Ht & Hlast & Htt & Htn).
  unfold updateBreadcrumb. rewrite Ht.
  destruct (save_render_done (set_breadcrumbs st0 t) Htt) as (st' & Hrun & Hsame).
  exists st'. cbn [breadcrumbs set_breadcrumbs] in Hsame. rewrite Hsame.
  split; [exact Hrun|]. split; [|split; assumption].
  apply buildBreadcrumbPath_shape in Ht as [->|(d & du & _ & _ & _ & ->)]; cbn; lia.
Qed.

(** ** getResolvedUrl and populateSidebar *)

Lemma includes_empty (s : string) : includes s EmptyString = true.
Proof. destruct s; reflexivity. Qed.

(** X18. A template url that is empty once its first slash is removed (the
    empty string, or the root path) matches every link: [getResolvedUrl]
    then returns the href of the first link of the page that has one, and
    the template url itself only when the page has no such link. *)
Theorem getResolvedUrl_root (d : document) (templateUrl : string) :
  replace templateUrl "/" EmptyString = EmptyString ->
  getResolvedUrl d templateUrl
  = match anchors_with_href d with
    | first :: _ => href first
    | [] => templateUrl
    end.
Proof.
  intros H. unfold getResolvedUrl.
  destruct (anchors_with_href d) as [|first rest]; [reflexivity|].
  cbn [List.find]. unfold resolves_template. rewrite H, includes_empty, orb_true_r.
  reflexivity.
Qed.

Lemma includes_prefix_self (p b : string) : includes (p +:+ b) p = true.
Proof. apply (includes_app EmptyString p b). Qed.

(** X19. The sidebar does not escape. With the navigation element
    present, [populateSidebar] builds one anchor per link, in order, with
    the link's url as its href; the markup it assigns contains the label
    as it is, so whatever text occurs in a label occurs in the markup; and
    the anchor gets the listener that clears the storage exactly when the
    lower-cased label is logout. *)
Theorem populateSidebar_markup (d : document) (old : list sidebar_anchor)
        (links : list sidebar_link) :
  exists built,
    populateSidebar d (Some old) links = Some built /\
    length built = length links /\
    forall i link,
      links !! i = Some link ->
      exists a,
        built !! i = Some a /\
        sa_href a = link_url link /\
        (forall text, includes (link_label link) text = true ->
                      includes (sa_innerHTML a) text = true) /\
        sa_clears_storage a = String.eqb (toLowerCase (link_label link)) "logout".
Proof.
  exists (List.map (sidebar_anchor_of d) links).
  split; [reflexivity|]. split; [apply length_map|].
  intros i link Hi. exists (sidebar_anchor_of d link).
  split; [change (List.map ?f ?l) with (f <$> l); rewrite list_lookup_fmap, Hi;
          reflexivity|].
  split; [reflexivity|]. split; [|reflexivity].
  intros text Htext. cbn [sa_innerHTML sidebar_anchor_of]. unfold sidebar_html.
  do 9 apply includes_app_r. apply includes_app_l, Htext.
Qed.

End Engine.

(** ** The snapshot accessor *)

Lemma getCurrentPath_fresh (hs : Heap.heap_state) :
  Heap.cells hs !! fst (Heap.getCurrentPath hs) = None.
Proof.
  unfold Heap.getCurrentPath. cbn [fst].
  apply not_elem_of_dom, is_fresh.
Qed.

(** C9 (as amended). [getCurrentPath] returns a new array that holds the
    same entries as the engine's trail. In a heap where the trail is an
    array of entry objects, whatever a caller then does to the returned
    array itself (adding, removing or replacing elements) leaves the
    engine's array and the trail the engine reads unchanged. *)
Theorem getCurrentPath_copies_array (hs : Heap.heap_state) (elems' : list Heap.loc) :
  Heap.well_formed hs ->
  let snapshot := fst (Heap.getCurrentPath hs) in
  let hs1 := snd (Heap.getCurrentPath hs) in
  let hs2 := Heap.array_assign hs1 snapshot elems' in
  snapshot <> Heap.breadcrumbs_ref hs /\
  Heap.array_elems hs1 snapshot = Heap.array_elems hs (Heap.breadcrumbs_ref hs) /\
  Heap.array_elems hs2 snapshot = elems' /\
  Heap.array_elems hs2 (Heap.breadcrumbs_ref hs2)
  = Heap.array_elems hs (Heap.breadcrumbs_ref hs) /\
  Heap.trail hs2 = Heap.trail hs.
Proof.
  intros (elems & Harr & Hobjs). cbv zeta.
  pose proof (getCurrentPath_fresh hs) as Hfresh.
  set (a := fst (Heap.getCurrentPath hs)) in *.
  assert (Hne : a <> Heap.breadcrumbs_ref hs).
  { intros Heq. rewrite Heq, Harr in Hfresh. discriminate. }
  assert (Hcells2 : Heap.cells (Heap.array_assign (snd (Heap.getCurrentPath hs)) a elems')
                    = <[a := Heap.CArray elems']> (Heap.cells hs)).
  { unfold Heap.array_assign, Heap.getCurrentPath. cbn [snd Heap.cells].
    fold a. rewrite lookup_insert_eq. cbn [Heap.cells]. apply insert_insert_eq. }
  assert (Href2 : Heap.breadcrumbs_ref
                    (Heap.array_assign (snd (Heap.getCurrentPath hs)) a elems')
                  = Heap.breadcrumbs_ref hs).
  { unfold Heap.array_assign, Heap.getCurrentPath. cbn [snd Heap.cells].
    fold a. rewrite lookup_insert_eq. reflexivity. }
  assert (Harr2 : Heap.array_elems
                    (Heap.array_assign (snd (Heap.getCurrentPath hs)) a elems')
                    (Heap.breadcrumbs_ref hs)
                  = Heap.array_elems hs (Heap.breadcrumbs_ref hs)).
  { unfold Heap.array_elems at 1. rewrite Hcells2, lookup_insert_ne by exact Hne.
    reflexivity. }
  split; [exact Hne|]. split; [|split; [|split]].
  - unfold Heap.array_elems at 1, Heap.getCurrentPath. cbn [snd Heap.cells].
    fold a. rewrite lookup_insert_eq. reflexivity.
  - unfold Heap.array_elems. rewrite Hcells2, lookup_insert_eq. reflexivity.
  - rewrite Href2. exact Harr2.
  - unfold Heap.trail. rewrite Href2, Harr2.
    unfold Heap.array_elems. rewrite Harr.
    apply Forall_fmap_ext_1, Forall_forall. intros o Ho. rewrite Hcells2.
    rewrite Forall_forall in Hobjs. destruct (Hobjs o Ho) as [props Hprops].
    apply lookup_insert_ne. intros Heq. rewrite Heq, Hprops in Hfresh. discriminate.
Qed.

(** ** Further properties of the snapshot accessor *)

(** X20. Taking a snapshot is a read. In a heap where the trail is an
    array of entry objects, [getCurrentPath] leaves the engine's reference
    and the trail it reads as they were and keeps the heap well formed; the
    array it returns holds the same elements as the engine's; and a second
    snapshot is yet another array. *)
Theorem getCurrentPath_read_only (hs : Heap.heap_state) :
  Heap.well_formed hs ->
  let snapshot := fst (Heap.getCurrentPath hs) in
  let hs1 := snd (Heap.getCurrentPath hs) in
  Heap.breadcrumbs_ref hs1 = Heap.breadcrumbs_ref hs /\
  Heap.trail hs1 = Heap.trail hs /\
  Heap.array_elems hs1 snapshot = Heap.array_elems hs (Heap.breadcrumbs_ref hs) /\
  Heap.well_formed hs1 /\
  fst (Heap.getCurrentPath hs1) <> snapshot.
Proof.
  intros (elems & Harr & Hobjs). cbv zeta.
  pose proof (getCurrentPath_fresh hs) as Hfresh.
  pose proof (getCurrentPath_fresh (snd (Heap.getCurrentPath hs))) as Hfresh1.
  set (a := fst (Heap.getCurrentPath hs)) in *.
  assert (Hcells : Heap.cells (snd (Heap.getCurrentPath hs))
                   = <[a := Heap.CArray elems]> (Heap.cells hs)).
  { unfold Heap.getCurrentPath, Heap.array_elems. cbn [snd Heap.cells].
    rewrite Harr. reflexivity. }
  assert (Hne : a <> Heap.breadcrumbs_ref hs).
  { intros Heq. rewrite Heq, Harr in Hfresh. discriminate. }
  assert (Hother : forall o, o ∈ elems ->
                             Heap.cells (snd (Heap.getCurrentPath hs)) !! o
                             = Heap.cells hs !! o).
  { intros o Ho. rewrite Hcells. apply lookup_insert_ne. intros Heq.
    rewrite Forall_forall in Hobjs. destruct (Hobjs o Ho) as [props Hprops].
    rewrite Heq, Hprops in Hfresh. discriminate. }
  assert (Hsame : Heap.cells (snd (Heap.getCurrentPath hs)) !! Heap.breadcrumbs_ref hs
                  = Some (Heap.CArray elems)).
  { rewrite Hcells, lookup_insert_ne by exact Hne. exact Harr. }
  split; [reflexivity|]. split; [|split; [|split]].
  - unfold Heap.trail, Heap.array_elems.
    change (Heap.breadcrumbs_ref (snd (Heap.getCurrentPath hs)))
      with (Heap.breadcrumbs_ref hs).
    rewrite Hsame, Harr. apply Forall_fmap_ext_1, Forall_forall, Hother.
  - unfold Heap.array_elems. rewrite Hcells, lookup_insert_eq, Harr. reflexivity.
  - exists elems. split; [exact Hsame|].
    apply Forall_forall. intros o Ho.
    rewrite Forall_forall in Hobjs. destruct (Hobjs o Ho) as [props Hprops].
    exists props. rewrite (Hother o Ho). exact Hprops.
  - intros Heq. rewrite Heq, Hcells, lookup_insert_eq in Hfresh1. discriminate.
Qed.

(** ** Concrete runs *)

Import Example.

(** C7, the claim as stated fails: a URL that is an output of the
    normaliser, and has a leading slash, is changed by normalising it once
    more, and again by a third pass. *)
Lemma normalizeUrl_not_idempotent :
  let u := normalizeUrl origin
             "https://app.example/go?from=https://app.example&to=https://app.example/x" in
  u = "/go?from=https://app.example&to=https://app.example/x" /\
  url_normalized u = true /\
  normalizeUrl origin u = "/go?from=&to=https://app.example/x" /\
  normalizeUrl origin (normalizeUrl origin u) = "/go?from=&to=/x" /\
  normalizeUrl origin (normalizeUrl origin u) <> normalizeUrl origin u.
Proof. vm_compute. repeat split; discriminate. Qed.

(** C7 (as amended) at an absolute URL of the application. *)
Lemma normalizeUrl_idempotent_witness :
  includes (normalizeUrl origin "https://app.example/employees/5/edit/") origin = false /\
  normalizeUrl origin (normalizeUrl origin "https://app.example/employees/5/edit/")
  = normalizeUrl origin "https://app.example/employees/5/edit/".
Proof.
  split; [reflexivity|].
  apply (normalizeUrl_idempotent origin "https://app.example/employees/5/edit/").
  reflexivity.
Defined.

(** C1, the claim as stated fails: called with an absolute URL of a
    dashboard page, [buildBreadcrumbPath] returns the entry with that
    absolute URL, not with its normalised form. *)
Lemma buildBreadcrumbPath_dashboard_not_normalized :
  isDashboardPage HostJson.to_property_key (PAGE_HIERARCHY fresh)
    (VStr "https://app.example/admin_dashboard/") (VStr "Admin Dashboard") = Ok true /\
  buildBreadcrumbPath origin HostJson.to_property_key fresh
    "Admin Dashboard" "https://app.example/admin_dashboard/"
  = Ok [mk_entry "Admin Dashboard" "https://app.example/admin_dashboard/"] /\
  normalizeUrl origin "https://app.example/admin_dashboard/" = "/admin_dashboard/" /\
  buildBreadcrumbPath origin HostJson.to_property_key fresh
    "Admin Dashboard" "https://app.example/admin_dashboard/"
  <> Ok [mk_entry "Admin Dashboard"
                  (normalizeUrl origin "https://app.example/admin_dashboard/")].
Proof. vm_compute. repeat split; discriminate. Qed.

(** C1 (as amended) at the admin dashboard's own page. *)
Lemma buildBreadcrumbPath_dashboard_witness :
  isDashboardPage HostJson.to_property_key (PAGE_HIERARCHY fresh)
    (VStr "/admin_dashboard/") (VStr "Admin Dashboard") = Ok true /\
  buildBreadcrumbPath origin HostJson.to_property_key fresh
    "Admin Dashboard" "/admin_dashboard/"
  = Ok [mk_entry "Admin Dashboard" "/admin_dashboard/"].
Proof.
  split; [reflexivity|].
  apply (proj1 (buildBreadcrumbPath_dashboard origin HostJson.to_property_key fresh
                  "Admin Dashboard" "/admin_dashboard/" eq_refl)).
Defined.

(** C2 at a page load that follows a visit to the employee editor. *)
Lemma buildBreadcrumbPath_invariant_witness :
  Forall (fun item => entry_typed item = true) (breadcrumbs visited) /\
  exists t,
    buildBreadcrumbPath origin HostJson.to_property_key visited "Reports" "/reports/" = Ok t /\
    length t <= 2 /\
    adjacent_distinct origin t = true /\
    last t = Some (mk_entry "Reports" "/reports/").
Proof.
  assert (H : Forall (fun item => entry_typed item = true) (breadcrumbs visited))
    by (repeat constructor).
  split; [exact H|].
  destruct (buildBreadcrumbPath_invariant origin HostJson.to_property_key visited
              "Reports" "/reports/") as [Hshape Hruns].
  destruct (Hruns H) as [t Ht]. exists t. split; [exact Ht|]. apply Hshape, Ht.
Defined.

(** C10 at a relative url: it is stored without a leading slash. *)
Lemma buildBreadcrumbPath_last_verbatim_witness :
  Forall (fun item => entry_typed item = true) (breadcrumbs visited) /\
  exists t ancestors,
    buildBreadcrumbPath origin HostJson.to_property_key visited "Reports" "reports?page=2"
    = Ok t /\
    t = ancestors ++ [VObj [("label", VStr "Reports"); ("url", VStr "reports?page=2")]].
Proof.
  assert (H : Forall (fun item => entry_typed item = true) (breadcrumbs visited))
    by (repeat constructor).
  split; [exact H|].
  destruct (buildBreadcrumbPath_last_verbatim origin HostJson.to_property_key visited
              "Reports" "reports?page=2") as [Hshape Hruns].
  destruct (Hruns H) as [t Ht]. destruct (Hshape t Ht) as [ancestors Hanc].
  exists t, ancestors. split; [exact Ht|exact Hanc].
Defined.

(** C3, the claim as stated fails, twice. Rule (b): a hierarchy entry with
    level 0 whose label lacks the word dashboard is passed over, and the
    script falls through to the default. Rule (d): with the role indicator
    saying admin and no link on the page, the default is the
    administrator's, not the lower-privilege one. *)
Lemma getDashboardPage_differs_from_spec :
  (getDashboardPage origin HostJson.to_property_key url_classified
   = Ok (mk_entry "Employee Dashboard" "/employee_dashboard/") /\
   resolveDashboard_spec origin HostJson.to_property_key url_classified
   = Ok (mk_entry "Admin Home" "/admin_dashboard/")) /\
  (getDashboardPage origin HostJson.to_property_key admin_fresh
   = Ok (mk_entry "Admin Dashboard" "/admin_dashboard/") /\
   resolveDashboard_spec origin HostJson.to_property_key admin_fresh
   = Ok (mk_entry "Employee Dashboard" "/employee_dashboard/")) /\
  getDashboardPage origin HostJson.to_property_key url_classified
  <> resolveDashboard_spec origin HostJson.to_property_key url_classified.
Proof. vm_compute. repeat split; discriminate. Qed.

(** C3 (as amended) at a trail that already holds the admin dashboard. *)
Lemma getDashboardPage_resolution_witness :
  Forall (fun item => entry_typed item = true) (breadcrumbs visited) /\
  exists d,
    getDashboardPage origin HostJson.to_property_key visited = Ok d /\
    entry_typed d = true /\
    resolves origin HostJson.to_property_key visited d.
Proof.
  assert (H : Forall (fun item => entry_typed item = true) (breadcrumbs visited))
    by (repeat constructor).
  split; [exact H|].
  destruct (getDashboardPage_resolution origin HostJson.to_property_key visited)
    as [Hsound Hruns].
  destruct (Hruns H) as (d & Hd & Hdt). exists d. auto.
Defined.

(** C4, the claim as stated fails: with nothing stored under the key,
    [loadBreadcrumbs] leaves a non-empty in-memory trail in place instead
    of yielding the empty trail. *)
Lemma loadBreadcrumbs_absent_keeps_trail :
  items (storage visited) !! BREADCRUMB_STORAGE_KEY = None /\
  breadcrumbs (loadBreadcrumbs HostJson.parse visited) = admin_trail /\
  breadcrumbs (loadBreadcrumbs HostJson.parse visited) <> [].
Proof. vm_compute. repeat split; discriminate. Qed.

(** C4 (as amended) at the stored list whose only element has a label and
    no url: it loads as the empty trail. *)
Lemma loadBreadcrumbs_label_only_run :
  HostJson.parse label_only_text = Ok (VArr [VObj [("label", VStr "A")]]) /\
  breadcrumbs (loadBreadcrumbs HostJson.parse label_only_stored) = [].
Proof.
  split; [vm_compute; reflexivity|].
  pose proof (loadBreadcrumbs_fail_soft HostJson.parse label_only_stored) as H.
  cbv zeta in H. destruct H as (_ & _ & H).
  destruct (H eq_refl) as [_ Htext].
  specialize (Htext label_only_text).
  assert (Hstored : items (storage label_only_stored) !! BREADCRUMB_STORAGE_KEY
                    = Some label_only_text) by (vm_compute; reflexivity).
  assert (Hne : label_only_text <> EmptyString) by (vm_compute; discriminate).
  specialize (Htext Hstored Hne).
  change (HostJson.parse label_only_text)
    with (Ok (VArr [VObj [("label", VStr "A")]])) in Htext.
  exact (proj2 Htext eq_refl).
Defined.

(** C5 at a trail of two entries, through the executable JSON instance and
    with the in-memory trail reset in between, as a page load does. *)
Lemma save_load_roundtrip_witness :
  breadcrumbs
    (loadBreadcrumbs HostJson.parse
       (set_breadcrumbs
          (saveBreadcrumbs HostJson.stringify (set_breadcrumbs fresh admin_trail)) []))
  = admin_trail.
Proof.
  apply (save_load_roundtrip HostJson.parse HostJson.stringify fresh admin_trail []).
  - repeat constructor; do 2 eexists; (split; [reflexivity|]); split; discriminate.
  - reflexivity.
  - reflexivity.
  - vm_compute. reflexivity.
  - vm_compute. discriminate.
Defined.

(** C6 at a trail whose current page is titled with a script tag. *)
Lemma renderBreadcrumbs_escapes_witness :
  exists htmls,
    renderBreadcrumbs scripted = Done (set_breadcrumbList scripted (Some htmls)) /\
    htmls !! 1 = Some ("<span class=" +:+ dq +:+ "font-medium text-gray-500" +:+ dq
                       +:+ ">&lt;script&gt;alert(1)&lt;/script&gt;</span>") /\
    Forall (fun html => includes html "<script" = false) htmls.
Proof.
  destruct (renderBreadcrumbs_escapes scripted [] eq_refl) as (htmls & Hrun & _).
  { repeat constructor. }
  exists htmls. split; [exact Hrun|].
  vm_compute in Hrun. injection Hrun as <-.
  split; [reflexivity|]. repeat constructor.
Defined.

(** C8, the claim as stated fails: an external [update] with a url
    that has no leading slash stores that url as it is. *)
Lemma updateBreadcrumb_stores_raw_url :
  exists st',
    updateBreadcrumb origin HostJson.stringify HostJson.to_property_key fresh
      "Reports" "reports"
    = Done st' /\
    breadcrumbs st' = [ mk_entry "Employee Dashboard" "/employee_dashboard/";
                        mk_entry "Reports" "reports" ] /\
    forallb entry_normalized (breadcrumbs st') = false.
Proof.
  eexists. split; [vm_compute; reflexivity|]. split; reflexivity.
Qed.

(** C8 (as amended) at a normalised url. *)
Lemma updateBreadcrumb_normalized_witness :
  exists st',
    updateBreadcrumb origin HostJson.stringify HostJson.to_property_key visited
      "Reports" "/reports/"
    = Done st' /\
    last (breadcrumbs st') = Some (mk_entry "Reports" "/reports/") /\
    Forall (fun item => entry_normalized item = true) (breadcrumbs st').
Proof.
  apply (updateBreadcrumb_normalized origin HostJson.stringify HostJson.to_property_key
           visited "Reports" "/reports/").
  - repeat constructor.
  - repeat constructor.
  - constructor.
  - reflexivity.
Defined.

(** C9, the claim as stated fails: the snapshot's elements are the
    engine's own entry objects, so a property written through the snapshot
    changes the trail the engine reads. *)
Lemma getCurrentPath_shares_entries :
  let snapshot := fst (Heap.getCurrentPath one_entry_heap) in
  let hs1 := snd (Heap.getCurrentPath one_entry_heap) in
  let hs2 := Heap.set_property hs1 2%positive "label" (VStr "Changed") in
  Heap.well_formed one_entry_heap /\
  Heap.array_elems hs1 snapshot = [2%positive] /\
  Heap.trail one_entry_heap
  = [Some (Heap.CObject [("label", VStr "Home"); ("url", VStr "/home/")])] /\
  Heap.trail hs2
  = [Some (Heap.CObject [("label", VStr "Changed"); ("url", VStr "/home/")])] /\
  Heap.trail hs2 <> Heap.trail one_entry_heap.
Proof.
  cbv zeta. split.
  { exists [2%positive]. split; [reflexivity|]. repeat constructor. eexists. reflexivity. }
  vm_compute. repeat split; discriminate.
Qed.

(** C9 (as amended): the caller empties the snapshot. *)
Lemma getCurrentPath_copies_array_witness :
  let snapshot := fst (Heap.getCurrentPath one_entry_heap) in
  let hs2 := Heap.array_assign (snd (Heap.getCurrentPath one_entry_heap)) snapshot [] in
  Heap.well_formed one_entry_heap /\
  Heap.array_elems hs2 snapshot = [] /\
  Heap.trail hs2 = Heap.trail one_entry_heap.
Proof.
  cbv zeta.
  assert (H : Heap.well_formed one_entry_heap).
  { exists [2%positive]. split; [reflexivity|]. repeat constructor. eexists. reflexivity. }
  split; [exact H|].
  destruct (getCurrentPath_copies_array one_entry_heap [] H) as (_ & _ & Hs & _ & Ht).
  split; [exact Hs|exact Ht].
Defined.

(** ** The scenarios of the specification, run from a fresh page load *)

Lemma scenario_admin_edit :
  exists st',
    onDOMContentLoaded origin HostJson.parse HostJson.stringify HostJson.to_property_key
      (on_page edit_employee_page empty_storage) = Done st' /\
    breadcrumbs st' = [ mk_entry "Admin Dashboard" "/admin_dashboard/";
                        mk_entry "Edit Employee" "/employees/5/edit/" ].
Proof. eexists. split; [vm_compute; reflexivity|reflexivity]. Qed.

Lemma scenario_dashboard_itself :
  exists st',
    onDOMContentLoaded origin HostJson.parse HostJson.stringify HostJson.to_property_key
      (on_page employee_dashboard_page empty_storage) = Done st' /\
    breadcrumbs st' = [ mk_entry "Employee Dashboard" "/employee_dashboard/" ].
Proof. eexists. split; [vm_compute; reflexivity|reflexivity]. Qed.

Lemma scenario_default_fallback :
  exists st',
    onDOMContentLoaded origin HostJson.parse HostJson.stringify HostJson.to_property_key
      (on_page profile_page empty_storage) = Done st' /\
    breadcrumbs st' = [ mk_entry "Employee Dashboard" "/employee_dashboard/";
                        mk_entry "My Profile" "/profile/" ].
Proof. eexists. split; [vm_compute; reflexivity|reflexivity]. Qed.

(** Why the statements about [getDashboardPage] and [buildBreadcrumbPath]
    ask for string labels and urls: [loadBreadcrumbs] keeps a stored entry
    whose label and url are truthy values of another type, and the next
    rebuild on a page that is not a dashboard throws on it. *)
Lemma type_invalid_record_raises :
  breadcrumbs (loadBreadcrumbs HostJson.parse (on_page profile_page booleans_stored))
  = [VObj [("label", VBool true); ("url", VBool true)]] /\
  exists st',
    onDOMContentLoaded origin HostJson.parse HostJson.stringify HostJson.to_property_key
      (on_page profile_page booleans_stored) = Raised TypeError st'.
Proof. split; [vm_compute; reflexivity|]. eexists. vm_compute. reflexivity. Qed.

(** ** Concrete runs of the further properties *)

(** X1 at a relative url. *)
Lemma normalizeUrl_relative_witness :
  includes "reports" origin = false /\
  normalizeUrl origin "reports" = "/reports" /\
  url_normalized (normalizeUrl origin "reports") = true.
Proof.
  split; [reflexivity|].
  exact (normalizeUrl_relative origin "reports" eq_refl).
Defined.

(** X2 at the employee editor. *)
Lemma normalizeUrl_absolute_witness :
  url_normalized "/employees/5/edit/" = true /\
  normalizeUrl origin "https://app.example/employees/5/edit/" = "/employees/5/edit/".
Proof.
  split; [reflexivity|].
  exact (normalizeUrl_absolute origin "/employees/5/edit/" eq_refl).
Defined.

(** X4 at the fallback of a page without links or role. *)
Lemma getDashboardPage_is_dashboard_witness :
  getDashboardPage origin HostJson.to_property_key fresh
  = Ok (mk_entry "Employee Dashboard" "/employee_dashboard/") /\
  exists url lbl,
    get_field (mk_entry "Employee Dashboard" "/employee_dashboard/") "url" = Ok url /\
    get_field (mk_entry "Employee Dashboard" "/employee_dashboard/") "label" = Ok lbl /\
    isDashboardPage HostJson.to_property_key (PAGE_HIERARCHY fresh) url lbl = Ok true.
Proof.
  split; [reflexivity|].
  exact (getDashboardPage_is_dashboard origin HostJson.to_property_key fresh
           (mk_entry "Employee Dashboard" "/employee_dashboard/") eq_refl).
Defined.


(** X7: the entry with the empty label does not come back. *)
Lemma save_load_keeps_valid_witness :
  breadcrumbs
    (loadBreadcrumbs HostJson.parse
       (set_breadcrumbs
          (saveBreadcrumbs HostJson.stringify (set_breadcrumbs fresh untitled_trail)) []))
  = [ mk_entry "Reports" "/reports/" ].
Proof.
  apply (save_load_keeps_valid HostJson.parse HostJson.stringify fresh untitled_trail []).
  - reflexivity.
  - reflexivity.
  - vm_compute. reflexivity.
  - vm_compute. discriminate.
Defined.

(** X10 at a trail of two entries. *)
Lemma renderBreadcrumbs_links_witness :
  exists htmls,
    renderBreadcrumbs visited = Done (set_breadcrumbList visited (Some htmls)) /\
    length htmls = 2 /\
    forall i html,
      htmls !! i = Some html -> includes html "<a href=" = negb (i =? 1).
Proof.
  apply (renderBreadcrumbs_links visited [] eq_refl). repeat constructor.
Defined.

(** X12 at the first rebuild of the reports page. *)
Lemma updateBreadcrumb_persists_witness :
  let st' := match updateBreadcrumb origin HostJson.stringify HostJson.to_property_key
                     fresh "Reports" "/reports/" with
             | Done s | Raised _ s => s
             end in
  updateBreadcrumb origin HostJson.stringify HostJson.to_property_key
    fresh "Reports" "/reports/" = Done st' /\
  buildBreadcrumbPath origin HostJson.to_property_key fresh "Reports" "/reports/"
  = Ok (breadcrumbs st') /\
  items (storage st') !! BREADCRUMB_STORAGE_KEY
  = Some (HostJson.stringify (VArr (breadcrumbs st'))).
Proof.
  cbv zeta.
  assert (H : updateBreadcrumb origin HostJson.stringify HostJson.to_property_key
                fresh "Reports" "/reports/"
              = Done (match updateBreadcrumb origin HostJson.stringify
                              HostJson.to_property_key fresh "Reports" "/reports/" with
                      | Done s | Raised _ s => s
                      end)) by (vm_compute; reflexivity).
  split; [exact H|].
  destruct (updateBreadcrumb_persists origin HostJson.stringify HostJson.to_property_key
              fresh _ "Reports" "/reports/" H) as (Hb & _ & _ & Hs).
  split; [exact Hb|exact Hs].
Defined.

(** X13 at a small piece of markup. *)
Lemma escapeHtml_injective_witness :
  escapeHtml "<b>" = "&lt;b&gt;" /\ "<b>" = "<b>".
Proof.
  split; [reflexivity|].
  exact (escapeHtml_injective "<b>" "<b>" eq_refl).
Defined.

(** X15 from the empty hierarchy, on the page that edits an employee. *)
Lemma initializePageHierarchy_invariant_witness :
  PAGE_HIERARCHY (initializePageHierarchy origin (on_page edit_employee_page empty_storage))
  = [ ("/admin_dashboard/",
       {| label := "Admin Dashboard"; level := 0; parent := None |});
      ("/employees/5/edit/",
       {| label := "Edit Employee"; level := 1; parent := None |}) ] /\
  is_Some (hierarchy_get
             (PAGE_HIERARCHY
                (initializePageHierarchy origin (on_page edit_employee_page empty_storage)))
             (normalizeUrl origin "/employees/5/edit/")).
Proof.
  split; [reflexivity|].
  exact (proj1 (proj2 (initializePageHierarchy_invariant origin
                         (on_page edit_employee_page empty_storage)
                         (List.Forall_nil _)))).
Defined.

(** X16: of two declarations of one url, the second decides the entry. *)
Lemma initializePageHierarchy_last_wins_witness :
  hierarchy_get
    (PAGE_HIERARCHY (initializePageHierarchy origin (on_page twice_declared_page empty_storage)))
    "/home/"
  = Some {| label := "Main Dashboard"; level := 0; parent := None |}.
Proof.
  apply (initializePageHierarchy_last_wins origin
           (on_page twice_declared_page empty_storage)
           {| href := "/home/"; data_label := Some "Main Dashboard";
              data_template_url := Some "/home/"; in_url_resolver := true |}
           [ {| href := "https://app.example/home/"; data_label := Some "Start";
                data_template_url := Some "/home/"; in_url_resolver := true |} ]
           []).
  - reflexivity.
  - constructor.
Defined.

(** X17 on the page that edits an employee. *)
Lemma onDOMContentLoaded_first_visit_witness :
  exists st',
    onDOMContentLoaded origin HostJson.parse HostJson.stringify HostJson.to_property_key
      (on_page edit_employee_page empty_storage) = Done st' /\
    length (breadcrumbs st') <= 2 /\
    last (breadcrumbs st') = Some (mk_entry "Edit Employee" "/employees/5/edit/") /\
    Forall (fun item => entry_normalized item = true) (breadcrumbs st').
Proof.
  apply (onDOMContentLoaded_first_visit origin HostJson.parse HostJson.stringify
           HostJson.to_property_key (on_page edit_employee_page empty_storage));
    reflexivity.
Defined.

(** X18: resolving the root path on a page with a link. *)
Lemma getResolvedUrl_root_witness :
  getResolvedUrl edit_employee_page "/" = "https://app.example/admin_dashboard/".
Proof.
  apply (getResolvedUrl_root edit_employee_page "/"). reflexivity.
Defined.

(** X20 at a heap with one entry. *)
Lemma getCurrentPath_read_only_witness :
  Heap.well_formed one_entry_heap /\
  Heap.trail (snd (Heap.getCurrentPath one_entry_heap)) = Heap.trail one_entry_heap /\
  fst (Heap.getCurrentPath (snd (Heap.getCurrentPath one_entry_heap)))
  <> fst (Heap.getCurrentPath one_entry_heap).
Proof.
  assert (H : Heap.well_formed one_entry_heap).
  { exists [2%positive]. split; [reflexivity|]. repeat constructor. eexists. reflexivity. }
  split; [exact H|].
  destruct (getCurrentPath_read_only one_entry_heap H) as (_ & Ht & _ & _ & Hne).
  split; [exact Ht|exact Hne].
Defined.
